(** * SoupaWhisper: the dictation control loop of [dictate.py]

    A shallow embedding of [dictate.py] and the properties of its
    key-code resolver, capture-backend selector, recording session,
    transcription pipeline and device multiplexer.

    Conventions of the embedding.
    - A Python [str] is a [string]; the characters are ASCII code points
      (the case mapping and whitespace classes of [Py] are those of
      Python restricted to ASCII, other characters are caseless and not
      white space).
    - A Python [dict] whose iteration order matters ([KEY_MAP]) is an
      association list in insertion order; [os.environ] is a [gmap]; the
      set of registered devices of the selector, the temporary files on
      disk and the live capture children are [gset]s.
    - Everything a function does to the outside (printing, running a
      tool, spawning or killing a process, creating or deleting a file)
      is appended to a trace of [effect]s; what the outside answers is
      read from a [Host].
    - [logger.debug] lines are not embedded: they print only under
      [--debug] and no state depends on them. *)

From Stdlib Require Import ZArith String Ascii List Lia DecimalString.
From stdpp Require Import base gmap sets list strings.

Local Open Scope string_scope.
Local Open Scope Z_scope.
Local Open Scope list_scope.

(** ** Python strings *)

Module Py.

Definition is_upper (c : ascii) : bool :=
  let n := nat_of_ascii c in (65 <=? n)%nat && (n <=? 90)%nat.

Definition is_lower (c : ascii) : bool :=
  let n := nat_of_ascii c in (97 <=? n)%nat && (n <=? 122)%nat.

Definition is_digit (c : ascii) : bool :=
  let n := nat_of_ascii c in (48 <=? n)%nat && (n <=? 57)%nat.

(** [c.isalnum()] on ASCII. *)
Definition isalnum (c : ascii) : bool := is_upper c || is_lower c || is_digit c.

(** [c.isspace()] on ASCII: tab, line feed, vertical tab, form feed,
    carriage return, the four separators 28..31, and space. *)
Definition isspace (c : ascii) : bool :=
  let n := nat_of_ascii c in
  ((9 <=? n)%nat && (n <=? 13)%nat) || ((28 <=? n)%nat && (n <=? 32)%nat).

Definition lower_char (c : ascii) : ascii :=
  if is_upper c then ascii_of_nat (nat_of_ascii c + 32) else c.

Definition upper_char (c : ascii) : ascii :=
  if is_lower c then ascii_of_nat (nat_of_ascii c - 32) else c.

(** [s.lower()] and [s.upper()]. *)
Fixpoint lower (s : string) : string :=
  match s with
  | EmptyString => EmptyString
  | String c s' => String (lower_char c) (lower s')
  end.

Fixpoint upper (s : string) : string :=
  match s with
  | EmptyString => EmptyString
  | String c s' => String (upper_char c) (upper s')
  end.

(** [len(s)]. *)
Definition len (s : string) : nat := String.length s.

(** Truth value of a [str]: every string but the empty one. *)
Definition truthy (s : string) : bool :=
  match s with EmptyString => false | String _ _ => true end.

(** Truth value of a value that is [None] or a [str]. *)
Definition truthy_opt (o : option string) : bool :=
  match o with None => false | Some s => truthy s end.

(** [s.lstrip()]: drop the white space in front. *)
Fixpoint lstrip (s : string) : string :=
  match s with
  | EmptyString => EmptyString
  | String c s' => if isspace c then lstrip s' else s
  end.

(** [s.rstrip()]: drop the white space at the end. *)
Fixpoint rstrip (s : string) : string :=
  match s with
  | EmptyString => EmptyString
  | String c s' =>
      match rstrip s' with
      | EmptyString => if isspace c then EmptyString else String c EmptyString
      | r => String c r
      end
  end.

(** [s.strip()]. *)
Definition strip (s : string) : string := lstrip (rstrip s).

(** [sep.join(items)]: the items are consumed from left to right and
    the separator is written before every item but the first. *)
Definition join (sep : string) (items : list string) : string :=
  match items with
  | [] => EmptyString
  | x :: rest => fold_left (fun acc y => acc +:+ sep +:+ y) rest x
  end.

(** [s[:n]]. *)
Fixpoint slice_to (n : nat) (s : string) : string :=
  match n, s with
  | S n', String c s' => String c (slice_to n' s')
  | _, _ => EmptyString
  end.

(** [s.replace(old, new)] for a non-empty [old]: the occurrences are
    replaced from left to right without overlap.  [skip] counts the
    characters of a matched occurrence that are still to be passed. *)
Fixpoint replace_from (old new : string) (skip : nat) (s : string) : string :=
  match s with
  | EmptyString => EmptyString
  | String c s' =>
      match skip with
      | S k => replace_from old new k s'
      | O =>
          if String.prefix old s
          then new +:+ replace_from old new (String.length old - 1) s'
          else String c (replace_from old new 0 s')
      end
  end.

Definition replace (old new s : string) : string := replace_from old new 0 s.

(** [sub in s]. *)
Fixpoint contains (sub s : string) : bool :=
  String.prefix sub s ||
  match s with
  | EmptyString => false
  | String _ s' => contains sub s'
  end.

(** [str(n)] for an [int]. *)
Definition str_of_int (n : Z) : string := NilZero.string_of_int (Z.to_int n).

End Py.

(** ** The key codes of [evdev.ecodes]

    [evdev] is a library the program imports; these are the constants of
    Linux's [input-event-codes.h] that the program names, the attributes
    [KEY_<c>] that [get_hotkey] can find (the letters and the digits are
    the only [KEY_] names with a one-character suffix), and the entries
    of the reverse table [ecodes.KEY] for the same codes. *)

Module ecodes.

Definition EV_KEY : Z := 1.

Definition KEY_F1 : Z := 59.
Definition KEY_F2 : Z := 60.
Definition KEY_F3 : Z := 61.
Definition KEY_F4 : Z := 62.
Definition KEY_F5 : Z := 63.
Definition KEY_F6 : Z := 64.
Definition KEY_F7 : Z := 65.
Definition KEY_F8 : Z := 66.
Definition KEY_F9 : Z := 67.
Definition KEY_F10 : Z := 68.
Definition KEY_F11 : Z := 87.
Definition KEY_F12 : Z := 88.
Definition KEY_SCROLLLOCK : Z := 70.
Definition KEY_PAUSE : Z := 119.
Definition KEY_INSERT : Z := 110.
Definition KEY_HOME : Z := 102.
Definition KEY_END : Z := 107.
Definition KEY_PAGEUP : Z := 104.
Definition KEY_PAGEDOWN : Z := 109.
Definition KEY_CAPSLOCK : Z := 58.
Definition KEY_NUMLOCK : Z := 69.
Definition KEY_A : Z := 30.
Definition KEY_SPACE : Z := 57.

(** The attributes [KEY_<name>] of the module and their codes: the
    digits, the letters, and the keys that [KEY_MAP] names. *)
Definition attributes : list (string * Z) :=
  [ ("KEY_1", 2); ("KEY_2", 3); ("KEY_3", 4); ("KEY_4", 5); ("KEY_5", 6);
    ("KEY_6", 7); ("KEY_7", 8); ("KEY_8", 9); ("KEY_9", 10); ("KEY_0", 11);
    ("KEY_Q", 16); ("KEY_W", 17); ("KEY_E", 18); ("KEY_R", 19);
    ("KEY_T", 20); ("KEY_Y", 21); ("KEY_U", 22); ("KEY_I", 23);
    ("KEY_O", 24); ("KEY_P", 25);
    ("KEY_A", KEY_A); ("KEY_S", 31); ("KEY_D", 32); ("KEY_F", 33);
    ("KEY_G", 34); ("KEY_H", 35); ("KEY_J", 36); ("KEY_K", 37);
    ("KEY_L", 38);
    ("KEY_Z", 44); ("KEY_X", 45); ("KEY_C", 46); ("KEY_V", 47);
    ("KEY_B", 48); ("KEY_N", 49); ("KEY_M", 50);
    ("KEY_SPACE", KEY_SPACE); ("KEY_CAPSLOCK", KEY_CAPSLOCK);
    ("KEY_F1", KEY_F1); ("KEY_F2", KEY_F2); ("KEY_F3", KEY_F3);
    ("KEY_F4", KEY_F4); ("KEY_F5", KEY_F5); ("KEY_F6", KEY_F6);
    ("KEY_F7", KEY_F7); ("KEY_F8", KEY_F8); ("KEY_F9", KEY_F9);
    ("KEY_F10", KEY_F10); ("KEY_NUMLOCK", KEY_NUMLOCK);
    ("KEY_SCROLLLOCK", KEY_SCROLLLOCK);
    ("KEY_F11", KEY_F11); ("KEY_F12", KEY_F12);
    ("KEY_HOME", KEY_HOME); ("KEY_PAGEUP", KEY_PAGEUP);
    ("KEY_END", KEY_END); ("KEY_PAGEDOWN", KEY_PAGEDOWN);
    ("KEY_INSERT", KEY_INSERT); ("KEY_PAUSE", KEY_PAUSE) ].

Fixpoint assoc (k : string) (l : list (string * Z)) : option Z :=
  match l with
  | [] => None
  | (k', v) :: rest => if String.eqb k k' then Some v else assoc k rest
  end.

Fixpoint rassoc (code : Z) (l : list (string * Z)) : option string :=
  match l with
  | [] => None
  | (k, v) :: rest => if Z.eqb v code then Some k else rassoc code rest
  end.

(** [getattr(ecodes, attr)]; [None] when [hasattr(ecodes, attr)] is
    false. *)
Definition getattr (attr : string) : option Z := assoc attr attributes.

(** A value of the table [ecodes.KEY]: one name, or the list of the
    aliases of a code (never empty). *)
Inductive key_names : Type :=
| Name (n : string)
| Names (first : string) (others : list string).

(** [ecodes.KEY.get(code)]: the codes above have one name each; two
    codes with aliases stand for the entries that are lists. *)
Definition KEY (code : Z) : option key_names :=
  match rassoc code attributes with
  | Some n => Some (Name n)
  | None =>
      if Z.eqb code 113 then Some (Names "KEY_MIN_INTERESTING" ["KEY_MUTE"])
      else if Z.eqb code 152 then Some (Names "KEY_COFFEE" ["KEY_SCREENLOCK"])
      else None
  end.

End ecodes.

(** ** Effects and the host *)

(** What the program does to the outside. *)
Inductive effect : Type :=
| Print (line : string)
    (* print(line) *)
| Osc52 (text : string)
    (* sys.stdout.write of ESC ]52;c; base64(text) BEL, then flush *)
| Run (argv : list string)
    (* subprocess.run(argv, ...) *)
| Communicate (argv : list string) (input : string)
    (* subprocess.Popen(argv, stdin=PIPE).communicate(input) *)
| Popen (argv : list string) (pid : positive)
    (* subprocess.Popen(argv, stdout=DEVNULL, stderr=DEVNULL) *)
| Terminate (pid : positive)
    (* process.terminate() *)
| Wait (pid : positive)
    (* process.wait() *)
| NamedTemporaryFile (name : string)
    (* tempfile.NamedTemporaryFile(suffix=".wav", delete=False), closed *)
| Transcribe (audio : string) (beam_size : Z) (vad_filter : bool)
    (* self.model.transcribe(audio, beam_size=.., vad_filter=..) *)
| Unlink (name : string)
    (* os.unlink(name) *)
| Kill (sig : Z)
    (* os.kill(os.getpid(), sig) *)
| Exit (code : Z).
    (* sys.exit(code) *)

(** How the process stands with the operating system. *)
Inductive status : Type :=
| Alive
| Exited (code : Z)
| Killed (sig : Z).

Module signal.
Definition SIGKILL : Z := 9.
End signal.

(** A segment of the recognition model's output. *)
Record Segment : Type := { text : string }.

(** What [WhisperModel(...)] does: it returns a model or raises [e],
    of which the program keeps [str(e)]. *)
Inductive load_result : Type :=
| Loaded
| LoadRaises (str_e : string).

(** What [model.transcribe] and the iteration over its lazy result do:
    the segments come one by one, and the call or the iteration may
    raise [e] (with [str(e)] kept) after some of them. *)
Record inference : Type := {
  segments : list Segment;
  raises : option string
}.

(** An input device as [evdev] shows it. *)
Record InputDevice : Type := {
  fd : nat;
  path : string;
  name : string;
  accessible : bool;                (* opening it raises no OSError *)
  capabilities : list (Z * list Z)  (* event type -> codes *)
}.

(** The answers of the outside. *)
Record Host : Type := {
  environ : gmap string string;     (* os.environ *)
  on_path : gset string;            (* the commands that `which` finds *)
  list_devices : list InputDevice;  (* evdev.list_devices(), opened *)
  WhisperModel : load_result;
  mkstemp : nat -> string;          (* name of the k-th temporary file *)
  spawn : nat -> positive;          (* pid of the k-th child *)
  transcribe : nat -> inference     (* outcome of the k-th transcription *)
}.

(** The settings read at import time. *)
Record Config : Type := {
  MODEL_SIZE : string;
  DEVICE : string;
  COMPUTE_TYPE : string;
  key : string;
  AUTO_TYPE : bool;
  NOTIFICATIONS : bool
}.

(** The defaults of [load_config]. *)
Definition defaults : Config :=
  {| MODEL_SIZE := "base.en"; DEVICE := "cpu"; COMPUTE_TYPE := "int8";
     key := "f12"; AUTO_TYPE := true; NOTIFICATIONS := true |}.

(** ** Key code resolver *)

(** [KEY_MAP], in the order of the source. *)
Definition KEY_MAP : list (string * Z) :=
  [ ("f1", ecodes.KEY_F1); ("f2", ecodes.KEY_F2); ("f3", ecodes.KEY_F3);
    ("f4", ecodes.KEY_F4); ("f5", ecodes.KEY_F5); ("f6", ecodes.KEY_F6);
    ("f7", ecodes.KEY_F7); ("f8", ecodes.KEY_F8); ("f9", ecodes.KEY_F9);
    ("f10", ecodes.KEY_F10); ("f11", ecodes.KEY_F11); ("f12", ecodes.KEY_F12);
    ("scroll_lock", ecodes.KEY_SCROLLLOCK); ("pause", ecodes.KEY_PAUSE);
    ("insert", ecodes.KEY_INSERT); ("home", ecodes.KEY_HOME);
    ("end", ecodes.KEY_END);
    ("pageup", ecodes.KEY_PAGEUP); ("pagedown", ecodes.KEY_PAGEDOWN);
    ("capslock", ecodes.KEY_CAPSLOCK); ("numlock", ecodes.KEY_NUMLOCK) ].

(** [get_hotkey(key_name)]: the key code, and what is printed. *)
Definition get_hotkey (key_name : string) : Z * list effect :=
  let key_name := Py.lower key_name in
  let unknown :=
    (ecodes.KEY_F12,
     [Print ("Unknown key: " +:+ key_name +:+ ", defaulting to f12")]) in
  match ecodes.assoc key_name KEY_MAP with
  | Some code => (code, [])
  | None =>
      if (Py.len key_name =? 1)%nat then
        let key_attr := "KEY_" +:+ Py.upper key_name in
        match ecodes.getattr key_attr with
        | Some code => (code, [])
        | None => unknown
        end
      else unknown
  end.

(** [get_key_name(keycode)]. *)
Definition get_key_name (keycode : Z) : string :=
  match ecodes.rassoc keycode KEY_MAP with
  | Some name => Py.upper name
  | None =>
      let name :=
        match ecodes.KEY keycode with
        | Some (ecodes.Name n) => n
        | Some (ecodes.Names first _) => first
        | None => "KEY_" +:+ Py.str_of_int keycode
        end in
      Py.replace "KEY_" "" name
  end.

Definition HOTKEY (cfg : Config) : Z := fst (get_hotkey (key cfg)).

(** ** Delivery sinks *)

(** [os.environ.get(var)] taken as a condition. *)
Definition env_set (h : Host) (var : string) : bool :=
  Py.truthy_opt (environ h !! var).

(** [subprocess.run(["which", tool], capture_output=True).returncode == 0]. *)
Definition which (h : Host) (tool : string) : bool * list effect :=
  (bool_decide (tool ∈ on_path h), [Run ["which"; tool]]).

Definition copy_to_clipboard (h : Host) (text : string) : list effect :=
  [Osc52 text] ++
  (if env_set h "WAYLAND_DISPLAY" then
     let '(found, probe) := which h "wl-copy" in
     probe ++ (if found then [Communicate ["wl-copy"] text] else [])
   else if env_set h "DISPLAY" then
     let '(found, probe) := which h "xclip" in
     probe ++
     (if found
      then [Communicate ["xclip"; "-selection"; "clipboard"] text]
      else [])
   else []).

Definition type_text (h : Host) (text : string) : list effect :=
  if env_set h "WAYLAND_DISPLAY"
  then [Run ["wtype"; text]]
  else [Run ["xdotool"; "type"; "--clearmodifiers"; text]].

(** ** Capture backend selector *)

Definition get_audio_recorder (h : Host) : option string * list effect :=
  let '(pw, probe1) := which h "pw-record" in
  if pw then (Some "pipewire", probe1)
  else
    let '(al, probe2) := which h "arecord" in
    if al then (Some "alsa", probe1 ++ probe2)
    else (None, probe1 ++ probe2).

Definition get_record_command (h : Host) (output_file : string)
  : list string * list effect :=
  let '(recorder, probes) := get_audio_recorder h in
  if bool_decide (recorder = Some "pipewire") then
    (["pw-record"; "--format"; "s16"; "--rate"; "16000"; "--channels"; "1";
      output_file], probes)
  else
    (["arecord"; "-f"; "S16_LE"; "-r"; "16000"; "-c"; "1"; "-t"; "wav";
      output_file], probes).

(** ** Keyboard discovery *)

Definition has_key (code : Z) (keys : list Z) : bool :=
  existsb (Z.eqb code) keys.

Fixpoint caps_get (etype : Z) (caps : list (Z * list Z)) : option (list Z) :=
  match caps with
  | [] => None
  | (t, codes) :: rest => if Z.eqb t etype then Some codes else caps_get etype rest
  end.

Definition is_keyboard (device : InputDevice) : bool :=
  accessible device &&
  match caps_get ecodes.EV_KEY (capabilities device) with
  | Some keys => has_key ecodes.KEY_A keys || has_key ecodes.KEY_SPACE keys
  | None => false
  end.

Definition find_keyboards (h : Host) : list InputDevice :=
  List.filter is_keyboard (list_devices h).

(** ** The state of the program *)

(** The object that [WhisperModel(...)] returns. *)
Variant model_object : Type := whisper_model.

(** The attributes of a [Dictation] object.  [selector] is the set of
    the file descriptors registered with the selector ([None] before
    [run], and the empty set here). *)
Record Dictation : Type := {
  recording : bool;
  record_process : option positive;
  temp_file : option string;
  model : option model_object;
  model_loaded : bool;
  model_error : option string;
  running : bool;
  keyboards : list InputDevice;
  selector : gset nat
}.

(** The outside as the program has changed it: the temporary files on
    disk, the live capture children, the trace of effects, the standing
    of the process, and how many answers of the host were used. *)
Record World : Type := {
  files : gset string;
  procs : gset positive;
  out : list effect;
  process : status;
  created : nat;
  spawned : nat;
  transcribed : nat
}.

Record State : Type := { self : Dictation; world : World }.

Definition set_recording (b : bool) (d : Dictation) : Dictation :=
  {| recording := b; record_process := record_process d;
     temp_file := temp_file d; model := model d;
     model_loaded := model_loaded d; model_error := model_error d;
     running := running d; keyboards := keyboards d; selector := selector d |}.

Definition set_record_process (p : option positive) (d : Dictation) : Dictation :=
  {| recording := recording d; record_process := p;
     temp_file := temp_file d; model := model d;
     model_loaded := model_loaded d; model_error := model_error d;
     running := running d; keyboards := keyboards d; selector := selector d |}.

Definition set_temp_file (f : option string) (d : Dictation) : Dictation :=
  {| recording := recording d; record_process := record_process d;
     temp_file := f; model := model d;
     model_loaded := model_loaded d; model_error := model_error d;
     running := running d; keyboards := keyboards d; selector := selector d |}.

Definition set_model (m : option model_object) (d : Dictation) : Dictation :=
  {| recording := recording d; record_process := record_process d;
     temp_file := temp_file d; model := m;
     model_loaded := model_loaded d; model_error := model_error d;
     running := running d; keyboards := keyboards d; selector := selector d |}.

Definition set_model_loaded (d : Dictation) : Dictation :=
  {| recording := recording d; record_process := record_process d;
     temp_file := temp_file d; model := model d;
     model_loaded := true; model_error := model_error d;
     running := running d; keyboards := keyboards d; selector := selector d |}.

Definition set_model_error (e : option string) (d : Dictation) : Dictation :=
  {| recording := recording d; record_process := record_process d;
     temp_file := temp_file d; model := model d;
     model_loaded := model_loaded d; model_error := e;
     running := running d; keyboards := keyboards d; selector := selector d |}.

Definition set_running (b : bool) (d : Dictation) : Dictation :=
  {| recording := recording d; record_process := record_process d;
     temp_file := temp_file d; model := model d;
     model_loaded := model_loaded d; model_error := model_error d;
     running := b; keyboards := keyboards d; selector := selector d |}.

Definition set_keyboards (k : list InputDevice) (d : Dictation) : Dictation :=
  {| recording := recording d; record_process := record_process d;
     temp_file := temp_file d; model := model d;
     model_loaded := model_loaded d; model_error := model_error d;
     running := running d; keyboards := k; selector := selector d |}.

Definition set_selector (s : gset nat) (d : Dictation) : Dictation :=
  {| recording := recording d; record_process := record_process d;
     temp_file := temp_file d; model := model d;
     model_loaded := model_loaded d; model_error := model_error d;
     running := running d; keyboards := keyboards d; selector := s |}.

(** Changing one side of the state. *)
Definition on_self (f : Dictation -> Dictation) (st : State) : State :=
  {| self := f (self st); world := world st |}.

Definition on_world (f : World -> World) (st : State) : State :=
  {| self := self st; world := f (world st) |}.

(** Appending to the trace. *)
Definition emit (es : list effect) : State -> State :=
  on_world (fun w =>
    {| files := files w; procs := procs w; out := out w ++ es;
       process := process w; created := created w; spawned := spawned w;
       transcribed := transcribed w |}).

(** [tempfile.NamedTemporaryFile(suffix=".wav", delete=False)] followed
    by [close()]: the file now exists. *)
Definition create_temp (name : string) (st : State) : State :=
  emit [NamedTemporaryFile name]
    (on_world (fun w =>
       {| files := {[name]} ∪ files w; procs := procs w; out := out w;
          process := process w; created := S (created w);
          spawned := spawned w; transcribed := transcribed w |}) st).

(** [subprocess.Popen(argv, ...)] of the capture command. *)
Definition popen (argv : list string) (pid : positive) (st : State) : State :=
  emit [Popen argv pid]
    (on_world (fun w =>
       {| files := files w; procs := {[pid]} ∪ procs w; out := out w;
          process := process w; created := created w;
          spawned := S (spawned w); transcribed := transcribed w |}) st).

(** [process.terminate()] then [process.wait()]: the child is gone. *)
Definition terminate_wait (pid : positive) (st : State) : State :=
  emit [Terminate pid; Wait pid]
    (on_world (fun w =>
       {| files := files w; procs := procs w ∖ {[pid]}; out := out w;
          process := process w; created := created w;
          spawned := spawned w; transcribed := transcribed w |}) st).

(** [os.unlink(name)]. *)
Definition unlink (name : string) (st : State) : State :=
  emit [Unlink name]
    (on_world (fun w =>
       {| files := files w ∖ {[name]}; procs := procs w; out := out w;
          process := process w; created := created w;
          spawned := spawned w; transcribed := transcribed w |}) st).

(** One more answer of [model.transcribe] was used. *)
Definition count_transcription : State -> State :=
  on_world (fun w =>
    {| files := files w; procs := procs w; out := out w;
       process := process w; created := created w; spawned := spawned w;
       transcribed := S (transcribed w) |}).

(** The process ends. *)
Definition end_process (s : status) : State -> State :=
  on_world (fun w =>
    {| files := files w; procs := procs w; out := out w;
       process := s; created := created w; spawned := spawned w;
       transcribed := transcribed w |}).

(** ** The methods of [Dictation] *)

(** [Dictation.__init__]: the attributes, and the loader thread is
    started; the thread's body is [_load_model], which runs when the
    outside lets it. *)
Definition __init__ (cfg : Config) : State :=
  {| self :=
       {| recording := false; record_process := None; temp_file := None;
          model := None; model_loaded := false; model_error := None;
          running := true; keyboards := []; selector := ∅ |};
     world :=
       {| files := ∅; procs := ∅;
          out := [Print ("Loading Whisper model (" +:+ MODEL_SIZE cfg +:+ ")...")];
          process := Alive; created := 0; spawned := 0; transcribed := 0 |} |}.

Definition cuda_hint : string :=
  "Hint: Try setting device = cpu in your config, or install cuDNN (NVIDIA) / ROCm (AMD).".

Definition _load_model (cfg : Config) (h : Host) (st : State) : State :=
  match WhisperModel h with
  | Loaded =>
      emit
        [Print "Model loaded. Ready for dictation!";
         Print ("Hold [" +:+ get_key_name (HOTKEY cfg)
                +:+ "] to record, release to transcribe.");
         Print "Press Ctrl+C to quit."]
        (on_self (fun d => set_model_loaded (set_model (Some whisper_model) d)) st)
  | LoadRaises e =>
      emit
        ([Print ("Failed to load model: " +:+ e)] ++
         (if Py.contains "cudnn" (Py.lower e) || Py.contains "cuda" (Py.lower e)
          then [Print cuda_hint] else []))
        (on_self (fun d => set_model_loaded (set_model_error (Some e) d)) st)
  end.

Definition notify (cfg : Config) (title message icon : string) (timeout : Z)
  : list effect :=
  if negb (NOTIFICATIONS cfg) then []
  else
    [Run ["notify-send"; "-a"; "SoupaWhisper"; "-i"; icon;
          "-t"; Py.str_of_int timeout;
          "-h"; "string:x-canonical-private-synchronous:soupawhisper";
          title; message]].

Definition start_recording (cfg : Config) (h : Host) (st : State) : State :=
  if recording (self st) || Py.truthy_opt (model_error (self st)) then st
  else
    let st := on_self (set_recording true) st in
    let name := mkstemp h (created (world st)) in
    let st := on_self (set_temp_file (Some name)) (create_temp name st) in
    let '(record_cmd, probes) := get_record_command h name in
    let st := emit probes st in
    let pid := spawn h (spawned (world st)) in
    let st := on_self (set_record_process (Some pid)) (popen record_cmd pid st) in
    emit
      ([Print "Recording..."] ++
       notify cfg "Recording..."
         ("Release " +:+ get_key_name (HOTKEY cfg) +:+ " when done")
         "audio-input-microphone" 30000)
      st.

(** Line 299 of [stop_recording]: the text of the transcript. *)
Definition assemble (segs : list Segment) : string :=
  Py.join " " (map (fun segment => Py.strip (text segment)) segs).

(** Lines 301-313 of [stop_recording]: what is done with the text. *)
Definition deliver (cfg : Config) (h : Host) (text : string) : list effect :=
  if Py.truthy text then
    copy_to_clipboard h text ++
    (if AUTO_TYPE cfg then type_text h text else []) ++
    [Print ("Copied: " +:+ text)] ++
    notify cfg "Copied!"
      (Py.slice_to 100 text +:+ (if (100 <? Py.len text)%nat then "..." else ""))
      "emblem-ok-symbolic" 3000
  else
    [Print "No speech detected"] ++
    notify cfg "No speech detected" "Try speaking louder" "dialog-warning" 2000.

(** The [except Exception as e] clause of [stop_recording]. *)
Definition report_error (cfg : Config) (str_e : string) : list effect :=
  [Print ("Error: " +:+ str_e)] ++
  notify cfg "Error" (Py.slice_to 50 str_e) "dialog-error" 3000.

(** The [try] block of [stop_recording] with its [except] clause.  An
    attribute of [None] raises [AttributeError] before the model is
    called. *)
Definition transcription (cfg : Config) (h : Host) (st : State) : State :=
  match model (self st) with
  | None =>
      emit (report_error cfg "'NoneType' object has no attribute 'transcribe'") st
  | Some _ =>
      match temp_file (self st) with
      | None =>
          emit (report_error cfg "'NoneType' object has no attribute 'name'") st
      | Some name =>
          let result := transcribe h (transcribed (world st)) in
          let st := count_transcription (emit [Transcribe name 5 true] st) in
          match raises result with
          | Some str_e => emit (report_error cfg str_e) st
          | None => emit (deliver cfg h (assemble (segments result))) st
          end
      end
  end.

(** The [finally] clause of [stop_recording]. *)
Definition cleanup (st : State) : State :=
  match temp_file (self st) with
  | Some name =>
      if bool_decide (name ∈ files (world st)) then unlink name st else st
  | None => st
  end.

(** [stop_recording].  [self.model_loaded.wait()] returns once the
    loader thread has set the event: at once if it has, and else after
    the thread's [_load_model] has run. *)
Definition stop_recording (cfg : Config) (h : Host) (st : State) : State :=
  if negb (recording (self st)) then st
  else
    let st := on_self (set_recording false) st in
    let st :=
      match record_process (self st) with
      | Some pid => on_self (set_record_process None) (terminate_wait pid st)
      | None => st
      end in
    let st :=
      emit
        ([Print "Transcribing..."] ++
         notify cfg "Transcribing..." "Processing your speech"
           "emblem-synchronizing" 30000)
        st in
    let st := if model_loaded (self st) then st else _load_model cfg h st in
    if Py.truthy_opt (model_error (self st)) then
      emit
        ([Print "Cannot transcribe: model failed to load"] ++
         notify cfg "Error" "Model failed to load" "dialog-error" 3000)
        st
    else cleanup (transcription cfg h st).

(** An event read from a device. *)
Record InputEvent : Type := { type : Z; code : Z; value : Z }.

Definition on_key_event (cfg : Config) (h : Host) (event : InputEvent)
    (st : State) : State :=
  if code event =? HOTKEY cfg then
    if value event =? 1 then start_recording cfg h st
    else if value event =? 0 then stop_recording cfg h st
    else st
  else st.

(** [Dictation.stop], the handler of SIGINT. *)
Definition stop (st : State) : State :=
  end_process (Killed signal.SIGKILL)
    (emit [Kill signal.SIGKILL]
       (on_self (set_running false)
          (emit [Print (String "010" "Exiting...")] st))).

(** ** The main loop *)

(** What [device.read()] does. *)
Inductive read_result : Type :=
| Events (events : list InputEvent)
| ReadOSError.

(** What the outside does next, as the main loop sees it: the devices
    that have become readable within the second that
    [selector.select(timeout=1)] waits (none: the wait timed out), each
    with what reading it will do; SIGINT; the loader thread running its
    body. *)
Inductive happening : Type :=
| Readable (ready : list (nat * read_result))
| SIGINT
| LoaderRuns.

(** [selector.select]: the registered devices among the readable ones,
    each once. *)
Fixpoint select (registered : gset nat) (ready : list (nat * read_result))
  : list (nat * read_result) :=
  match ready with
  | [] => []
  | (d, r) :: rest =>
      if bool_decide (d ∈ registered)
      then (d, r) :: select (registered ∖ {[d]}) rest
      else select registered rest
  end.

(** [selector.unregister(device)]; a device that is not registered
    raises [KeyError], which nothing catches. *)
Definition unregister (d : nat) (st : State) : State :=
  if bool_decide (d ∈ selector (self st))
  then on_self (set_selector (selector (self st) ∖ {[d]})) st
  else end_process (Exited 1) st.

(** The body of [for key, mask in ...]: the [try] statement. *)
Definition read_device (cfg : Config) (h : Host) (st : State)
    (item : nat * read_result) : State :=
  match process (world st) with
  | Alive =>
      match snd item with
      | Events events =>
          fold_left
            (fun st event =>
               if type event =? ecodes.EV_KEY
               then on_key_event cfg h event st else st)
            events st
      | ReadOSError => unregister (fst item) st
      end
  | _ => st
  end.

(** One turn of [while self.running], or a signal or the loader thread
    between two turns.  When [self.running] is false the loop ends,
    [run] and [main] return, and the process exits with status 0. *)
Definition step (cfg : Config) (h : Host) (st : State) (x : happening) : State :=
  match process (world st) with
  | Alive =>
      match x with
      | Readable ready =>
          if running (self st)
          then fold_left (read_device cfg h) (select (selector (self st)) ready) st
          else end_process (Exited 0) st
      | SIGINT => stop st
      | LoaderRuns => if model_loaded (self st) then st else _load_model cfg h st
      end
  | _ => st
  end.

Definition main_loop (cfg : Config) (h : Host) (future : list happening)
    (st : State) : State :=
  fold_left (step cfg h) future st.

(** [Dictation.run]. *)
Definition run (cfg : Config) (h : Host) (future : list happening)
    (st : State) : State :=
  let found := find_keyboards h in
  let st := on_self (set_keyboards found) st in
  match found with
  | [] =>
      end_process (Exited 1)
        (emit
           [Print "Error: No keyboards found!";
            Print "Make sure you're in the 'input' group: sudo usermod -aG input $USER";
            Print "Then log out and back in.";
            Exit 1]
           st)
  | _ :: _ =>
      let st :=
        emit
          [Print ("Monitoring " +:+ Py.str_of_int (Z.of_nat (length found))
                  +:+ " keyboard(s)...")]
          st in
      let st := on_self (set_selector (list_to_set (map fd found))) st in
      main_loop cfg h future st
  end.

(** ** Startup *)

(** [check_dependencies()]: what it runs and prints, and the status
    with which [sys.exit] ends the process when something is missing. *)
Definition check_dependencies (cfg : Config) (h : Host)
  : list effect * option Z :=
  let '(recorder, probes) := get_audio_recorder h in
  let missing_recorder :=
    match recorder with
    | None => [("pw-record or arecord", "pipewire or alsa-utils")]
    | Some _ => []
    end in
  let '(missing_typer, probe) :=
    if AUTO_TYPE cfg then
      if env_set h "WAYLAND_DISPLAY" then
        let '(found, probe) := which h "wtype" in
        (if found then [] else [("wtype", "wtype")], probe)
      else
        let '(found, probe) := which h "xdotool" in
        (if found then [] else [("xdotool", "xdotool")], probe)
    else ([], []) in
  let missing := missing_recorder ++ missing_typer in
  match missing with
  | [] => (probes ++ probe, None)
  | _ :: _ =>
      (probes ++ probe ++
       [Print "Missing dependencies:"] ++
       map (fun m => Print ("  " +:+ fst m +:+
                            " - install with: sudo apt install " +:+ snd m))
         missing ++
       [Exit 1],
       Some 1)
  end.

Definition __version__ : string := "0.1.0".

(** The flags of a well-formed command line, as [parse_args] finds
    them. *)
Record Args : Type := { version : bool; debug : bool }.

(** The world in which the program starts. *)
Definition boot : World :=
  {| files := ∅; procs := ∅; out := []; process := Alive;
     created := 0; spawned := 0; transcribed := 0 |}.

(** The effects [pre] came before everything that [st] has done. *)
Definition preceded_by (pre : list effect) : State -> State :=
  on_world (fun w =>
    {| files := files w; procs := procs w; out := pre ++ out w;
       process := process w; created := created w; spawned := spawned w;
       transcribed := transcribed w |}).

(** What [main] leaves: the [Dictation] object, if it got to build one,
    and the world. *)
Record Outcome : Type := { dictation : option Dictation; final : World }.

Definition leave (w : World) (es : list effect) (s : status) : Outcome :=
  {| dictation := None;
     final := {| files := files w; procs := procs w; out := out w ++ es;
                 process := s; created := created w; spawned := spawned w;
                 transcribed := transcribed w |} |}.

(** [main()].  [CONFIG_PATH] and whether it exists are given; the option
    [--version] makes [parse_args] print the version and exit with 0.
    The handler of SIGINT is [Dictation.stop], which [step] calls. *)
Definition main (cfg : Config) (h : Host) (args : Args)
    (CONFIG_PATH : string) (config_exists : bool)
    (future : list happening) : Outcome :=
  if version args then
    leave boot [Print ("SoupaWhisper " +:+ __version__); Exit 0] (Exited 0)
  else
    let banner :=
      [Print ("SoupaWhisper v" +:+ __version__);
       Print (if config_exists
              then "Config: " +:+ CONFIG_PATH
              else "Config: using defaults (create " +:+ CONFIG_PATH
                   +:+ " to customize)")] in
    let '(_, probes) := get_audio_recorder h in
    let '(checks, exit_code) := check_dependencies cfg h in
    match exit_code with
    | Some code => leave boot (banner ++ probes ++ checks) (Exited code)
    | None =>
        let st :=
          run cfg h future
            (preceded_by (banner ++ probes ++ checks) (__init__ cfg)) in
        {| dictation := Some (self st); final := world st |}
    end.

(** * Notions used in the properties *)

(** ** White space at the ends of a string *)

Fixpoint all_space (s : string) : bool :=
  match s with
  | EmptyString => true
  | String c s' => Py.isspace c && all_space s'
  end.

Definition starts_with_space (s : string) : bool :=
  match s with
  | EmptyString => false
  | String c _ => Py.isspace c
  end.

Fixpoint ends_with_space (s : string) : bool :=
  match s with
  | EmptyString => false
  | String c EmptyString => Py.isspace c
  | String _ s' => ends_with_space s'
  end.

(** [t] is [s] without the white space around it. *)
Definition trimmed_of (s t : string) : Prop :=
  exists l r : string,
    s = l +:+ t +:+ r /\ all_space l = true /\ all_space r = true /\
    starts_with_space t = false /\ ends_with_space t = false.

(** ** Recognized hotkey names *)

(** The hotkey names that the resolver knows: the keys of [KEY_MAP] in
    any casing, and the letters and digits. *)
Definition recognized (key_name : string) : Prop :=
  is_Some (ecodes.assoc (Py.lower key_name) KEY_MAP) \/
  exists c : ascii, key_name = String c "" /\ Py.isalnum c = true.

(** ** Capture commands *)

(** The audio format that a capture command asks for. *)
Record pcm : Type := {
  channels : Z;
  sample_bits : Z;
  sample_signed : bool;
  sample_rate : Z
}.

(** The value that follows [flag] in an argument vector. *)
Fixpoint flag_value (flag : string) (argv : list string) : option string :=
  match argv with
  | a :: rest =>
      match rest with
      | v :: _ => if String.eqb a flag then Some v else flag_value flag rest
      | [] => None
      end
  | [] => None
  end.

Definition decimal (s : string) : option Z :=
  match NilEmpty.uint_of_string s with
  | Some Decimal.Nil => None
  | Some d => Some (Z.of_uint d)
  | None => None
  end.

(** The sample formats of [pw-record --format] and of [arecord -f]:
    width and signedness. *)
Definition pw_format (s : string) : option (Z * bool) :=
  if String.eqb s "u8" then Some (8, false)
  else if String.eqb s "s8" then Some (8, true)
  else if String.eqb s "s16" then Some (16, true)
  else if String.eqb s "s32" then Some (32, true)
  else None.

Definition alsa_format (s : string) : option (Z * bool) :=
  if String.eqb s "U8" then Some (8, false)
  else if String.eqb s "S8" then Some (8, true)
  else if String.eqb s "S16_LE" then Some (16, true)
  else if String.eqb s "U16_LE" then Some (16, false)
  else if String.eqb s "S32_LE" then Some (32, true)
  else None.

(** The format that a command line of [pw-record] or of [arecord] asks
    for, read off its flags. *)
Definition requested_format (argv : list string) : option pcm :=
  match argv with
  | tool :: args =>
      let read format_flag format_of rate_flag channels_flag :=
        match flag_value format_flag args ≫= format_of,
              flag_value rate_flag args ≫= decimal,
              flag_value channels_flag args ≫= decimal with
        | Some (bits, sgn), Some r, Some c =>
            Some {| channels := c; sample_bits := bits;
                    sample_signed := sgn; sample_rate := r |}
        | _, _, _ => None
        end in
      if String.eqb tool "pw-record"
      then read "--format" pw_format "--rate" "--channels"
      else if String.eqb tool "arecord"
      then read "-f" alsa_format "-r" "-c"
      else None
  | [] => None
  end.

(** Mono, 16-bit signed, 16 kHz. *)
Definition whisper_format : pcm :=
  {| channels := 1; sample_bits := 16; sample_signed := true;
     sample_rate := 16000 |}.

Definition pipewire_argv (output_file : string) : list string :=
  ["pw-record"; "--format"; "s16"; "--rate"; "16000"; "--channels"; "1";
   output_file].

Definition alsa_argv (output_file : string) : list string :=
  ["arecord"; "-f"; "S16_LE"; "-r"; "16000"; "-c"; "1"; "-t"; "wav";
   output_file].

(** ** Hosts and states to run the program on *)

Definition keyboard0 : InputDevice :=
  {| fd := 3; path := "/dev/input/event3"; name := "AT Translated Set 2 keyboard";
     accessible := true;
     capabilities := [(ecodes.EV_KEY, [ecodes.KEY_A; ecodes.KEY_SPACE; ecodes.KEY_F12])] |}.

Definition keyboard1 : InputDevice :=
  {| fd := 4; path := "/dev/input/event7"; name := "USB Keyboard";
     accessible := true;
     capabilities := [(ecodes.EV_KEY, [ecodes.KEY_A; ecodes.KEY_F12])] |}.

Definition hello_world : inference :=
  {| segments := [ {| text := " hello" |}; {| text := "world " |} ];
     raises := None |}.

(** A desktop with PipeWire and X11 where the model loads and hears
    "hello world" each time. *)
Definition desktop : Host :=
  {| environ := {[ "DISPLAY" := ":0" ]};
     on_path := {[ "pw-record"; "arecord"; "xdotool"; "xclip"; "notify-send" ]};
     list_devices := [keyboard0; keyboard1];
     WhisperModel := Loaded;
     mkstemp := fun k => "/tmp/tmp" +:+ Py.str_of_int (Z.of_nat k) +:+ ".wav";
     spawn := fun k => Pos.of_succ_nat (4000 + k);
     transcribe := fun _ => hello_world |}.

(** The same desktop with another outcome of the model's loading and of
    its transcriptions. *)
Definition desktop_with (loading : load_result) (heard : inference) : Host :=
  {| environ := environ desktop; on_path := on_path desktop;
     list_devices := list_devices desktop;
     WhisperModel := loading;
     mkstemp := mkstemp desktop; spawn := spawn desktop;
     transcribe := fun _ => heard |}.

(** The hotkey of the default configuration is pressed, released. *)
Definition press : InputEvent :=
  {| type := ecodes.EV_KEY; code := ecodes.KEY_F12; value := 1 |}.

Definition release : InputEvent :=
  {| type := ecodes.EV_KEY; code := ecodes.KEY_F12; value := 0 |}.

(** The state after the model has loaded and the hotkey is held. *)
Definition held (h : Host) : State :=
  start_recording defaults h (_load_model defaults h (__init__ defaults)).

(** ** The recording session *)

(** The session is idle: nothing is being recorded and no capture child
    is held. *)
Definition Idle (st : State) : Prop :=
  recording (self st) = false /\ record_process (self st) = None.

(** The capture children that are alive are the one that
    [record_process] holds, if it holds one, and it holds none when
    nothing is being recorded. *)
Definition one_child (st : State) : Prop :=
  procs (world st)
  = match record_process (self st) with
    | Some pid => {[ pid ]}
    | None => ∅
    end /\
  (recording (self st) = false -> record_process (self st) = None).

(** The stages of [stop_recording] once it has found that a recording
    runs: the capture child is stopped and the user is told; then, after
    the wait for the loader, the model is reported as failed or the [try]
    statement runs. *)
(** The loader thread runs its body, once. *)
Definition load_once (cfg : Config) (h : Host) (st : State) : State :=
  if model_loaded (self st) then st else _load_model cfg h st.

Definition halt (cfg : Config) (st : State) : State :=
  let st := on_self (set_recording false) st in
  let st :=
    match record_process (self st) with
    | Some pid => on_self (set_record_process None) (terminate_wait pid st)
    | None => st
    end in
  emit
    ([Print "Transcribing..."] ++
     notify cfg "Transcribing..." "Processing your speech"
       "emblem-synchronizing" 30000)
    st.

Definition conclude (cfg : Config) (h : Host) (st : State) : State :=
  if Py.truthy_opt (model_error (self st)) then
    emit
      ([Print "Cannot transcribe: model failed to load"] ++
       notify cfg "Error" "Model failed to load" "dialog-error" 3000)
      st
  else cleanup (transcription cfg h st).

(** A call of the session from the outside: the hotkey goes down, the
    hotkey goes up, the loader thread runs its body. *)
Inductive call : Type :=
| Start
| Stop
| Load.

Definition perform (cfg : Config) (h : Host) (st : State) (c : call) : State :=
  match c with
  | Start => start_recording cfg h st
  | Stop => stop_recording cfg h st
  | Load => load_once cfg h st
  end.

(** ** The transcription pipeline *)

(** The effects of a call that takes [st] to [st']. *)
Definition emitted (st st' : State) : list effect :=
  drop (length (out (world st))) (out (world st')).

(** An effect of the clipboard sink: the escape sequence, or text piped
    to a clipboard tool. *)
Definition is_clipboard (e : effect) : bool :=
  match e with
  | Osc52 _ => true
  | Communicate _ _ => true
  | _ => false
  end.

(** An effect of the typing sink: a run of [wtype] or of [xdotool]. *)
Definition is_typing (e : effect) : bool :=
  match e with
  | Run (tool :: _) => String.eqb tool "wtype" || String.eqb tool "xdotool"
  | _ => false
  end.

(** What [stop_recording] does before it calls the model. *)
Definition stop_prefix (cfg : Config) (st : State) : list effect :=
  match record_process (self st) with
  | Some pid => [Terminate pid; Wait pid]
  | None => []
  end ++
  [Print "Transcribing..."] ++
  notify cfg "Transcribing..." "Processing your speech"
    "emblem-synchronizing" 30000.

(** [n] spaces. *)
Fixpoint spaces (n : nat) : string :=
  match n with
  | O => EmptyString
  | S k => String " " (spaces k)
  end.

(** The segments' texts are white space only. *)
Definition blank (segment : Segment) : Prop := Py.strip (text segment) = "".

(** The line that reports that nothing was heard. *)
Definition is_no_speech (e : effect) : bool :=
  match e with
  | Print line => String.eqb line "No speech detected"
  | _ => false
  end.

(** The model hears white space only, in two segments. *)
Definition two_blanks : inference :=
  {| segments := [ {| text := " " |}; {| text := "" |} ]; raises := None |}.

(** The model's loading fails for want of a CUDA driver. *)
Definition cuda_failure : load_result :=
  LoadRaises "CUDA driver version is insufficient for CUDA runtime version".

(** The model's loading raises an exception without a message, as
    [MemoryError()] has none. *)
Definition silent_failure : load_result := LoadRaises "".

(** ** The main loop *)

(** Reading the device raises [OSError]. *)
Definition read_fails (item : nat * read_result) : bool :=
  match snd item with
  | ReadOSError => true
  | Events _ => false
  end.

(** The devices whose read fails, and the items whose read succeeds. *)
Definition failing (items : list (nat * read_result)) : gset nat :=
  list_to_set (map fst (List.filter read_fails items)).

Definition readable_only (items : list (nat * read_result))
  : list (nat * read_result) :=
  List.filter (fun item => negb (read_fails item)) items.

Definition no_sigint (x : happening) : bool :=
  match x with
  | SIGINT => false
  | _ => true
  end.

(** The state once [run] has found the two keyboards of the desktop and
    the model has loaded. *)
Definition monitoring : State :=
  run defaults desktop [LoaderRuns] (__init__ defaults).

(** * Notions used in the further properties

    As in the embedding of the session, a tool that is run returns: the
    calls of [subprocess] raise nothing. *)

(** The warning of [get_hotkey] for a name that it does not know. *)
Definition unknown_key_warning (key_name : string) : effect :=
  Print ("Unknown key: " +:+ Py.lower key_name +:+ ", defaulting to f12").

(** Text is piped to a tool. *)
Definition is_communicate (e : effect) : bool :=
  match e with
  | Communicate _ _ => true
  | _ => false
  end.

(** The tool that a command line runs. *)
Definition tool_of (argv : list string) : option string := head argv.

(** The typing tool that [type_text] runs on this host. *)
Definition typing_tool (h : Host) : string :=
  if env_set h "WAYLAND_DISPLAY" then "wtype" else "xdotool".

(** The first line that a [Dictation] object prints when it is built. *)
Definition loading_line (cfg : Config) : effect :=
  Print ("Loading Whisper model (" +:+ MODEL_SIZE cfg +:+ ")...").

(** A plain command line: no [--version], no [--debug]. *)
Definition no_flags : Args := {| version := false; debug := false |}.

(** A host without any input device that the program may open. *)
Definition headless : Host :=
  {| environ := environ desktop; on_path := on_path desktop;
     list_devices := [];
     WhisperModel := Loaded;
     mkstemp := mkstemp desktop; spawn := spawn desktop;
     transcribe := transcribe desktop |}.

(** An effect that the main loop and its startup cause by themselves:
    a printed line, and the end of the process. *)
Definition is_plain (e : effect) : bool :=
  match e with
  | Print _ => true
  | Kill _ => true
  | Exit _ => true
  | _ => false
  end.

(** The model is called. *)
Definition is_transcribe (e : effect) : bool :=
  match e with
  | Transcribe _ _ _ => true
  | _ => false
  end.

(** [notify-send] is run. *)
Definition is_notify_send (e : effect) : bool :=
  match e with
  | Run (tool :: _) => String.eqb tool "notify-send"
  | _ => false
  end.

(** No effect of the trace satisfies [p]. *)
Definition never (p : effect -> bool) (st : State) : Prop :=
  existsb p (out (world st)) = false.

(** The temporary files on disk are accounted for: while a recording
    runs, its file is the only one; otherwise there is none, or the one
    that a stop has left after the model was reported as failed.  The
    error message is unset as long as the loader has not finished. *)
Definition tidy (st : State) : Prop :=
  (model_loaded (self st) = false -> model_error (self st) = None) /\
  (recording (self st) = true ->
   exists f : string, temp_file (self st) = Some f /\ files (world st) = {[ f ]}) /\
  (recording (self st) = false ->
   files (world st) = ∅ \/
   (Py.truthy_opt (model_error (self st)) = true /\
    exists f : string, files (world st) = {[ f ]})).

(** An event that drives the session: a press or a release of the
    hotkey. *)
Definition drives (cfg : Config) (event : InputEvent) : bool :=
  (type event =? ecodes.EV_KEY) && (code event =? HOTKEY cfg) &&
  ((value event =? 1) || (value event =? 0)).

(** The model hears something and then fails. *)
Definition out_of_memory : inference :=
  {| segments := [ {| text := "hello" |} ];
     raises := Some "CUDA out of memory" |}.

(** ** The traces of the session *)

(** What the loader thread prints. *)
Definition load_output (cfg : Config) (h : Host) : list effect :=
  match WhisperModel h with
  | Loaded =>
      [Print "Model loaded. Ready for dictation!";
       Print ("Hold [" +:+ get_key_name (HOTKEY cfg)
              +:+ "] to record, release to transcribe.");
       Print "Press Ctrl+C to quit."]
  | LoadRaises e =>
      [Print ("Failed to load model: " +:+ e)] ++
      (if Py.contains "cudnn" (Py.lower e) || Py.contains "cuda" (Py.lower e)
       then [Print cuda_hint] else [])
  end.

(** [self.model_error] and [self.model] once [self.model_loaded.wait()]
    has returned. *)
Definition model_error_after_wait (h : Host) (st : State) : option string :=
  if model_loaded (self st) then model_error (self st)
  else
    match WhisperModel h with
    | Loaded => model_error (self st)
    | LoadRaises e => Some e
    end.

Definition model_after_wait (h : Host) (st : State) : option model_object :=
  if model_loaded (self st) then model (self st)
  else
    match WhisperModel h with
    | Loaded => Some whisper_model
    | LoadRaises _ => model (self st)
    end.

(** Everything that a call of [start_recording] emits. *)
Definition start_output (cfg : Config) (h : Host) (st : State) : list effect :=
  if recording (self st) || Py.truthy_opt (model_error (self st)) then []
  else
    let name := mkstemp h (created (world st)) in
    [NamedTemporaryFile name] ++
    snd (get_record_command h name) ++
    [Popen (fst (get_record_command h name)) (spawn h (spawned (world st)));
     Print "Recording..."] ++
    notify cfg "Recording..."
      ("Release " +:+ get_key_name (HOTKEY cfg) +:+ " when done")
      "audio-input-microphone" 30000.

(** Everything that a call of [stop_recording] emits. *)
Definition stop_output (cfg : Config) (h : Host) (st : State) : list effect :=
  if recording (self st) then
    stop_prefix cfg st ++
    (if model_loaded (self st) then [] else load_output cfg h) ++
    (if Py.truthy_opt (model_error_after_wait h st) then
       [Print "Cannot transcribe: model failed to load"] ++
       notify cfg "Error" "Model failed to load" "dialog-error" 3000
     else
       match model_after_wait h st with
       | None =>
           report_error cfg "'NoneType' object has no attribute 'transcribe'"
       | Some _ =>
           match temp_file (self st) with
           | None =>
               report_error cfg "'NoneType' object has no attribute 'name'"
           | Some name =>
               [Transcribe name 5 true] ++
               match raises (transcribe h (transcribed (world st))) with
               | Some str_e => report_error cfg str_e
               | None =>
                   deliver cfg h
                     (assemble (segments (transcribe h (transcribed (world st)))))
               end
           end
       end ++
       match temp_file (self st) with
       | Some name =>
           if bool_decide (name ∈ files (world st)) then [Unlink name] else []
       | None => []
       end)
  else [].

(** A turn of the loop in which the hotkey of the default configuration
    is pressed and released on the first keyboard of the desktop. *)
Definition one_dictation : list happening :=
  [LoaderRuns; Readable [(3%nat, Events [press; release])]].


(** There is no model object and the model was never called. *)
Definition unloaded (st : State) : Prop :=
  model (self st) = None /\ never is_transcribe st.

(** The state of the desktop once the model has loaded, before any
    press. *)
Definition ready_desktop : State := load_once defaults desktop (__init__ defaults).

(** The programs that the session may run, and when: [which] for
    probing, [notify-send] only with [NOTIFICATIONS], [wtype] and
    [xdotool] only with [AUTO_TYPE]; text is piped to [wl-copy] and
    [xclip] only; the capture child is [pw-record] or [arecord]. *)
Definition permitted (cfg : Config) (e : effect) : bool :=
  match e with
  | Run (tool :: _) =>
      if String.eqb tool "which" then true
      else if String.eqb tool "notify-send" then NOTIFICATIONS cfg
      else if String.eqb tool "wtype" || String.eqb tool "xdotool"
           then AUTO_TYPE cfg
      else false
  | Run [] => false
  | Communicate (tool :: _) _ =>
      String.eqb tool "wl-copy" || String.eqb tool "xclip"
  | Communicate [] _ => false
  | Popen (tool :: _) _ =>
      String.eqb tool "pw-record" || String.eqb tool "arecord"
  | Popen [] _ => false
  | _ => true
  end.

(** Every effect of the trace is permitted. *)
Definition lawful (cfg : Config) (st : State) : Prop :=
  forallb (permitted cfg) (out (world st)) = true.


(** * Properties *)

(** ** Python strings *)

Section PyFacts.

Lemma append_nil (s : string) : "" +:+ s = s.
Proof. reflexivity. Qed.

Lemma append_cons (c : ascii) (s t : string) :
  String c s +:+ t = String c (s +:+ t).
Proof. reflexivity. Qed.

Lemma append_empty_r (s : string) : s +:+ "" = s.
Proof.
  induction s as [|c s IH]; [reflexivity|].
  now rewrite append_cons, IH.
Qed.

Lemma append_assoc (a b c : string) : (a +:+ b) +:+ c = a +:+ (b +:+ c).
Proof.
  induction a as [|x a IH]; [reflexivity|].
  now rewrite !append_cons, IH.
Qed.

Lemma upper_lower_char (c : ascii) :
  Py.upper_char (Py.lower_char c) = Py.upper_char c.
Proof. destruct c as [[] [] [] [] [] [] [] []]; reflexivity. Qed.

Lemma upper_lower (s : string) : Py.upper (Py.lower s) = Py.upper s.
Proof.
  induction s as [|c s IH]; simpl; [reflexivity|].
  now rewrite upper_lower_char, IH.
Qed.

(** [join] written from the left is [String.concat], written from the
    right. *)
Lemma join_fold (sep : string) (rest : list string) (acc : string) :
  fold_left (fun a y => a +:+ sep +:+ y) rest acc
  = acc +:+ (match rest with
             | [] => ""
             | _ :: _ => sep +:+ String.concat sep rest
             end).
Proof.
  revert acc; induction rest as [|y rest IH]; intros acc; simpl.
  - now rewrite append_empty_r.
  - rewrite IH. destruct rest as [|z rest].
    + now rewrite append_empty_r.
    + now rewrite !append_assoc.
Qed.

Lemma join_concat (sep : string) (items : list string) :
  Py.join sep items = String.concat sep items.
Proof.
  destruct items as [|x rest]; simpl; [reflexivity|].
  rewrite join_fold. destruct rest; [apply append_empty_r | reflexivity].
Qed.

End PyFacts.

(** ** What [strip] removes *)

Section Strip.

Lemma lstrip_split (s : string) :
  exists l, s = l +:+ Py.lstrip s /\ all_space l = true /\
            starts_with_space (Py.lstrip s) = false.
Proof.
  induction s as [|c s (l & Hs & Hl & Hf)]; simpl.
  - exists ""; auto.
  - destruct (Py.isspace c) eqn:Hc.
    + exists (String c l). rewrite append_cons, <- Hs. simpl.
      rewrite Hc, Hl. auto.
    + exists "". simpl. auto.
Qed.

Lemma rstrip_split (s : string) :
  exists r, s = Py.rstrip s +:+ r /\ all_space r = true /\
            ends_with_space (Py.rstrip s) = false.
Proof.
  induction s as [|c s (r & Hs & Hr & Hf)]; simpl.
  - exists ""; auto.
  - destruct (Py.rstrip s) as [|c' t] eqn:Ht.
    + destruct (Py.isspace c) eqn:Hc.
      * exists (String c r). rewrite append_nil in *. subst r.
        simpl. rewrite Hc, Hr. auto.
      * exists r. rewrite append_cons, <- Hs. simpl. rewrite Hc. auto.
    + exists r. rewrite append_cons, <- Hs. auto.
Qed.

Lemma lstrip_keeps_end (s : string) :
  ends_with_space s = false -> ends_with_space (Py.lstrip s) = false.
Proof.
  induction s as [|c s IH]; simpl; [reflexivity|].
  intros H. destruct (Py.isspace c) eqn:Hc.
  - destruct s as [|c' s']; [reflexivity|]. apply IH, H.
  - simpl. rewrite Hc. exact H.
Qed.

Lemma strip_trimmed (s : string) : trimmed_of s (Py.strip s).
Proof.
  unfold Py.strip.
  destruct (rstrip_split s) as (r & Hs & Hr & He).
  destruct (lstrip_split (Py.rstrip s)) as (l & Ht & Hl & Hf).
  exists l, r. repeat split; auto.
  - rewrite <- append_assoc, <- Ht. exact Hs.
  - now apply lstrip_keeps_end.
Qed.

End Strip.

Section StripUnique.

Lemma rstrip_all_space (r : string) : all_space r = true -> Py.rstrip r = "".
Proof.
  induction r as [|c r IH]; simpl; [reflexivity|].
  intros [Hc Hr]%andb_true_iff. now rewrite (IH Hr), Hc.
Qed.

Lemma rstrip_trailing (t r : string) :
  t <> "" -> ends_with_space t = false -> all_space r = true ->
  Py.rstrip (t +:+ r) = t.
Proof.
  induction t as [|c t IH]; [congruence|]. intros _ He Hr.
  rewrite append_cons. simpl. destruct t as [|c' t'].
  - rewrite append_nil, (rstrip_all_space r Hr). simpl in He. now rewrite He.
  - rewrite (IH ltac:(discriminate) He Hr). reflexivity.
Qed.

Lemma rstrip_leading (l u : string) :
  Py.rstrip u <> "" -> Py.rstrip (l +:+ u) = l +:+ Py.rstrip u.
Proof.
  intros Hu. induction l as [|c l IH]; [reflexivity|].
  rewrite !append_cons. simpl. rewrite IH.
  destruct (l +:+ Py.rstrip u) eqn:E; [|reflexivity].
  destruct l; [rewrite append_nil in E; congruence | discriminate].
Qed.

Lemma all_space_append (l r : string) :
  all_space l = true -> all_space r = true -> all_space (l +:+ r) = true.
Proof.
  induction l as [|c l IH]; [auto|]. rewrite append_cons. simpl.
  intros [Hc Hl]%andb_true_iff Hr. now rewrite Hc, IH.
Qed.

Lemma lstrip_leading (l t : string) :
  all_space l = true -> Py.lstrip (l +:+ t) = Py.lstrip t.
Proof.
  induction l as [|c l IH]; [reflexivity|]. rewrite append_cons. simpl.
  intros [Hc Hl]%andb_true_iff. now rewrite Hc, IH.
Qed.

Lemma lstrip_id (t : string) : starts_with_space t = false -> Py.lstrip t = t.
Proof. destruct t as [|c t]; simpl; [reflexivity|]. now intros ->. Qed.

(** The trimmed string is unique: it is what [strip] returns. *)
Lemma trimmed_is_strip (s t : string) : trimmed_of s t -> t = Py.strip s.
Proof.
  intros (l & r & -> & Hl & Hr & Hf & He). unfold Py.strip.
  destruct t as [|c t].
  - rewrite append_nil, rstrip_all_space; [reflexivity|].
    now apply all_space_append.
  - rewrite rstrip_leading; rewrite rstrip_trailing; auto; try discriminate.
    rewrite lstrip_leading by assumption. now rewrite lstrip_id.
Qed.

End StripUnique.

(** ** Key code resolver: names and display names *)

Section Resolver.

Lemma key_map_display (k : string) (code : Z) :
  ecodes.assoc k KEY_MAP = Some code -> get_key_name code = Py.upper k.
Proof.
  unfold KEY_MAP; simpl.
  repeat match goal with
         | |- context [String.eqb k ?s] =>
             destruct (String.eqb_spec k s) as [->|_];
             [intros [= <-]; reflexivity|]
         end.
  intros H; discriminate H.
Qed.

Lemma named_key_round_trip (key_name : string) :
  is_Some (ecodes.assoc (Py.lower key_name) KEY_MAP) ->
  get_hotkey key_name = (fst (get_hotkey key_name), []) /\
  get_key_name (fst (get_hotkey key_name)) = Py.upper key_name.
Proof.
  intros [code Hc]. unfold get_hotkey. rewrite Hc. simpl. split; [reflexivity|].
  rewrite (key_map_display _ _ Hc). apply upper_lower.
Qed.

Lemma char_key_round_trip (c : ascii) :
  Py.isalnum c = true ->
  get_hotkey (String c "") = (fst (get_hotkey (String c "")), []) /\
  get_key_name (fst (get_hotkey (String c ""))) = Py.upper (String c "").
Proof.
  destruct c as [[] [] [] [] [] [] [] []]; intros H;
    try discriminate H; split; vm_compute; reflexivity.
Qed.

End Resolver.

(** C7: for every recognized hotkey name, [get_hotkey] then
    [get_key_name] gives the name in upper case, without the [KEY_]
    prefix of the table of codes, and [get_hotkey] prints no warning;
    "f12" resolves to the code of F12, which is displayed as "F12". *)
Theorem hotkey_round_trip (key_name : string) :
  recognized key_name ->
  get_key_name (fst (get_hotkey key_name)) = Py.upper key_name /\
  snd (get_hotkey key_name) = [].
Proof.
  intros [Hmap | (c & -> & Hc)].
  - destruct (named_key_round_trip key_name Hmap) as [-> ->]. auto.
  - destruct (char_key_round_trip c Hc) as [-> ->]. auto.
Qed.

Lemma hotkey_round_trip_f12 :
  recognized "f12" /\
  fst (get_hotkey "f12") = ecodes.KEY_F12 /\
  get_key_name (fst (get_hotkey "f12")) = "F12".
Proof.
  assert (H : recognized "f12") by (left; vm_compute; eauto).
  split; [exact H|]. split; [reflexivity|].
  exact (proj1 (hotkey_round_trip "f12" H)).
Defined.

(** ** Transcript assembly *)

(** C4: the transcript is the texts of the segments, each without the
    white space around it, in the order of emission and joined by one
    space ([String.concat " "]): such trimmed texts exist for every
    finite sequence of segments, and whichever they are, their join is
    the transcript; for the segments "hello" and "world" it is "hello
    world". *)
Theorem assemble_joins_trimmed_segments :
  (forall segs : list Segment,
      exists trimmed : list string,
        Forall2 trimmed_of (map text segs) trimmed /\
        assemble segs = String.concat " " trimmed) /\
  (forall (segs : list Segment) (trimmed : list string),
      Forall2 trimmed_of (map text segs) trimmed ->
      assemble segs = String.concat " " trimmed) /\
  assemble [ {| text := "hello" |}; {| text := "world" |} ] = "hello world".
Proof.
  split; [|split; [|reflexivity]].
  - intros segs. exists (map (fun segment => Py.strip (text segment)) segs).
    split; [|apply join_concat].
    induction segs as [|s segs IH]; simpl; constructor; auto using strip_trimmed.
  - intros segs trimmed H. unfold assemble. rewrite join_concat. f_equal.
    revert trimmed H; induction segs as [|s segs IH]; intros trimmed H;
      inversion H; subst; [reflexivity|]. simpl.
    f_equal; [symmetry; now apply trimmed_is_strip | now apply IH].
Qed.

(** ** Capture commands *)

Section RecordCommand.

Lemma get_audio_recorder_cases (h : Host) :
  get_audio_recorder h =
    if bool_decide ("pw-record" ∈ on_path h)
    then (Some "pipewire", [Run ["which"; "pw-record"]])
    else if bool_decide ("arecord" ∈ on_path h)
    then (Some "alsa", [Run ["which"; "pw-record"]; Run ["which"; "arecord"]])
    else (None, [Run ["which"; "pw-record"]; Run ["which"; "arecord"]]).
Proof.
  unfold get_audio_recorder, which.
  destruct (bool_decide ("pw-record" ∈ on_path h)); [reflexivity|].
  destruct (bool_decide ("arecord" ∈ on_path h)); reflexivity.
Qed.

Lemma get_record_command_cases (h : Host) (output_file : string) :
  get_record_command h output_file =
    (match fst (get_audio_recorder h) with
     | Some "pipewire" => pipewire_argv output_file
     | _ => alsa_argv output_file
     end,
     snd (get_audio_recorder h)).
Proof.
  unfold get_record_command. rewrite get_audio_recorder_cases.
  destruct (bool_decide ("pw-record" ∈ on_path h)); [reflexivity|].
  destruct (bool_decide ("arecord" ∈ on_path h)); reflexivity.
Qed.

End RecordCommand.

(** C8: for each backend that the selector can answer (pipewire, alsa,
    and none, which takes the ALSA branch) and every output path, the
    command asks for one channel, 16-bit signed samples and 16000 Hz,
    and its last argument is the output path; the two commands differ in
    the tool and in the spelling of the flags. *)
Theorem record_command_format (h : Host) (output_file : string) :
  let argv := fst (get_record_command h output_file) in
  requested_format argv = Some whisper_format /\
  last argv = Some output_file /\
  argv = (if bool_decide (fst (get_audio_recorder h) = Some "pipewire")
          then pipewire_argv output_file
          else alsa_argv output_file) /\
  requested_format (pipewire_argv output_file) = Some whisper_format /\
  requested_format (alsa_argv output_file) = Some whisper_format.
Proof.
  simpl. rewrite get_record_command_cases, get_audio_recorder_cases.
  destruct (bool_decide ("pw-record" ∈ on_path h));
    [|destruct (bool_decide ("arecord" ∈ on_path h))];
    repeat split; reflexivity.
Qed.

(** ** The capture command is resolved at every call *)

(** The claim of C6 fails: a call of [get_record_command] runs [which]. *)
Lemma get_record_command_probes :
  snd (get_record_command desktop "/tmp/tmp0.wav")
  = [Run ["which"; "pw-record"]] /\
  snd (get_record_command desktop "/tmp/tmp0.wav") <> [].
Proof. split; [reflexivity | discriminate]. Qed.

(** C6, amended: [get_record_command] is not free of effects.  Every
    call resolves the backend anew by running [which pw-record], and
    [which arecord] when the former is not found; nothing is resolved
    at startup and kept.  The command is decided by the outcome of these
    probes at the call and by the output path, and every recording that
    starts runs the probes again, between the creation of the temporary
    file and the spawning of the capture child. *)
Theorem get_record_command_resolves_at_each_call
    (cfg : Config) (h : Host) (output_file : string) (st : State) :
  snd (get_record_command h output_file)
  = (if bool_decide ("pw-record" ∈ on_path h)
     then [Run ["which"; "pw-record"]]
     else [Run ["which"; "pw-record"]; Run ["which"; "arecord"]]) /\
  fst (get_record_command h output_file)
  = (if bool_decide ("pw-record" ∈ on_path h)
     then pipewire_argv output_file
     else alsa_argv output_file) /\
  out (world (start_recording cfg h st))
  = (if recording (self st) || Py.truthy_opt (model_error (self st))
     then out (world st)
     else
       let name := mkstemp h (created (world st)) in
       out (world st) ++
       [NamedTemporaryFile name] ++
       snd (get_record_command h name) ++
       [Popen (fst (get_record_command h name)) (spawn h (spawned (world st)));
        Print "Recording..."] ++
       notify cfg "Recording..."
         ("Release " +:+ get_key_name (HOTKEY cfg) +:+ " when done")
         "audio-input-microphone" 30000).
Proof.
  split; [|split].
  - rewrite get_record_command_cases, get_audio_recorder_cases. simpl.
    destruct (bool_decide ("pw-record" ∈ on_path h)); [reflexivity|].
    destruct (bool_decide ("arecord" ∈ on_path h)); reflexivity.
  - rewrite get_record_command_cases, get_audio_recorder_cases. simpl.
    destruct (bool_decide ("pw-record" ∈ on_path h)); [reflexivity|].
    destruct (bool_decide ("arecord" ∈ on_path h)); reflexivity.
  - unfold start_recording.
    destruct (recording (self st) || Py.truthy_opt (model_error (self st)));
      [reflexivity|].
    simpl. destruct (get_record_command h _) as [record_cmd probes]. simpl.
    rewrite <- !app_assoc. reflexivity.
Qed.


(** ** The recording session *)

(** Case analysis on every condition that a definition branches on. *)
Ltac crack :=
  repeat (simpl in *;
          match goal with
          | |- context [match ?x with _ => _ end] => destruct x eqn:?
          end);
  simpl in *.

Section Session.

Context (cfg : Config) (h : Host).

(** What [start_recording] leaves alone. *)
Lemma start_recording_frame (st : State) :
  let st' := start_recording cfg h st in
  process (world st') = process (world st) /\
  selector (self st') = selector (self st) /\
  running (self st') = running (self st) /\
  model (self st') = model (self st) /\
  model_loaded (self st') = model_loaded (self st) /\
  model_error (self st') = model_error (self st).
Proof. unfold start_recording. crack; repeat split; reflexivity. Qed.

(** What [stop_recording] leaves alone. *)
Lemma stop_recording_frame (st : State) :
  let st' := stop_recording cfg h st in
  process (world st') = process (world st) /\
  selector (self st') = selector (self st) /\
  running (self st') = running (self st) /\
  temp_file (self st') = temp_file (self st).
Proof.
  unfold stop_recording, _load_model, transcription, cleanup.
  crack; repeat split; reflexivity.
Qed.

(** [start_recording] does nothing while a recording runs. *)
Lemma start_recording_while_recording (st : State) :
  recording (self st) = true -> start_recording cfg h st = st.
Proof. intros H. unfold start_recording. now rewrite H. Qed.

(** [start_recording] does nothing when [model_error] holds a message
    that is not empty. *)
Lemma start_recording_after_reported_failure (st : State) :
  Py.truthy_opt (model_error (self st)) = true -> start_recording cfg h st = st.
Proof.
  intros H. unfold start_recording. rewrite H. now rewrite orb_true_r.
Qed.

(** [stop_recording] does nothing when nothing is being recorded. *)
Lemma stop_recording_while_idle (st : State) :
  recording (self st) = false -> stop_recording cfg h st = st.
Proof. intros H. unfold stop_recording. now rewrite H. Qed.

Lemma load_once_frame (st : State) :
  let st' := load_once cfg h st in
  process (world st') = process (world st) /\
  selector (self st') = selector (self st) /\
  running (self st') = running (self st) /\
  recording (self st') = recording (self st) /\
  record_process (self st') = record_process (self st) /\
  procs (world st') = procs (world st) /\
  files (world st') = files (world st) /\
  temp_file (self st') = temp_file (self st) /\
  transcribed (world st') = transcribed (world st).
Proof. unfold load_once, _load_model. crack; repeat split; reflexivity. Qed.

Lemma stop_recording_stages (st : State) :
  recording (self st) = true ->
  stop_recording cfg h st = conclude cfg h (load_once cfg h (halt cfg st)).
Proof. intros H. unfold stop_recording. rewrite H. reflexivity. Qed.

Lemma halt_frame (st : State) :
  let st' := halt cfg st in
  recording (self st') = false /\
  record_process (self st') = None /\
  temp_file (self st') = temp_file (self st) /\
  model (self st') = model (self st) /\
  model_loaded (self st') = model_loaded (self st) /\
  model_error (self st') = model_error (self st) /\
  files (world st') = files (world st) /\
  transcribed (world st') = transcribed (world st).
Proof. unfold halt. crack; repeat split; congruence. Qed.

Lemma transcription_frame (st : State) :
  let st' := transcription cfg h st in
  self st' = self st /\
  files (world st') = files (world st) /\
  procs (world st') = procs (world st) /\
  process (world st') = process (world st).
Proof. unfold transcription. crack; repeat split; reflexivity. Qed.

Lemma cleanup_frame (st : State) :
  let st' := cleanup st in
  self st' = self st /\
  procs (world st') = procs (world st) /\
  process (world st') = process (world st).
Proof. unfold cleanup. crack; repeat split; reflexivity. Qed.

(** The [finally] clause leaves no temporary file. *)
Lemma cleanup_deletes (st : State) (f : string) :
  temp_file (self st) = Some f -> f ∉ files (world (cleanup st)).
Proof.
  intros Hf. unfold cleanup. rewrite Hf.
  destruct (bool_decide (f ∈ files (world st))) eqn:Hin.
  - simpl. apply not_elem_of_difference. right. now apply elem_of_singleton.
  - now apply bool_decide_eq_false_1 in Hin.
Qed.

Lemma conclude_frame (st : State) :
  let st' := conclude cfg h st in
  self st' = self st /\
  procs (world st') = procs (world st) /\
  process (world st') = process (world st).
Proof.
  unfold conclude. destruct (Py.truthy_opt (model_error (self st))).
  - repeat split; reflexivity.
  - destruct (transcription_frame st) as (Hs & _ & Hp & Hq).
    destruct (cleanup_frame (transcription cfg h st)) as (Hs' & Hp' & Hq').
    simpl in *. repeat split; congruence.
Qed.

(** Stopping the capture child leaves none alive when it was the only
    one. *)
Lemma halt_procs (st : State) :
  procs (world (halt cfg st))
  = match record_process (self st) with
    | Some pid => procs (world st) ∖ {[ pid ]}
    | None => procs (world st)
    end.
Proof. unfold halt. crack; reflexivity. Qed.

(** After [stop_recording] the session is idle whatever the pipeline
    did; the temporary file is deleted on every path through the [try]
    statement and is left on disk when the model is reported as failed to
    load. *)
Lemma stop_recording_outcome (st : State) (f : string) :
  recording (self st) = true ->
  temp_file (self st) = Some f ->
  let st' := stop_recording cfg h st in
  Idle st' /\
  (f ∈ files (world st') <->
   f ∈ files (world st) /\ Py.truthy_opt (model_error (self st')) = true).
Proof.
  intros Hrec Hf. simpl. rewrite (stop_recording_stages st Hrec).
  destruct (halt_frame st) as (Hr & Hp & Ht & _ & _ & _ & Hfs & _).
  destruct (load_once_frame (halt cfg st))
    as (_ & _ & _ & Hr' & Hp' & _ & Hfs' & Ht' & _).
  set (st1 := load_once cfg h (halt cfg st)) in *.
  assert (Hf1 : temp_file (self st1) = Some f) by congruence.
  unfold conclude.
  destruct (Py.truthy_opt (model_error (self st1))) eqn:He.
  - unfold Idle. simpl. rewrite Hr', Hp', Hr, Hp, He, Hfs', Hfs. tauto.
  - destruct (transcription_frame st1) as (Hs & _).
    destruct (cleanup_frame (transcription cfg h st1)) as (Hs' & _).
    unfold Idle. rewrite Hs', Hs, Hr', Hp', Hr, Hp, He.
    split; [auto|]. split; [|intros [_ ?]; discriminate].
    intros Hin. exfalso. revert Hin. apply cleanup_deletes.
    now rewrite Hs.
Qed.

(** The invariant of the session. *)
Lemma one_child_init : one_child (__init__ cfg).
Proof. split; reflexivity. Qed.

Lemma one_child_start (st : State) :
  one_child st -> one_child (start_recording cfg h st).
Proof.
  intros H. unfold start_recording.
  destruct (recording (self st)) eqn:Hrec; [exact H|].
  destruct (Py.truthy_opt (model_error (self st))); [exact H|].
  destruct H as [Hp Hn].
  simpl. destruct (get_record_command h _) as [record_cmd probes]. simpl.
  split; [|discriminate]. simpl. rewrite Hp, (Hn Hrec).
  apply union_empty_r_L.
Qed.

Lemma one_child_stop (st : State) :
  one_child st -> one_child (stop_recording cfg h st).
Proof.
  intros H. destruct (recording (self st)) eqn:Hrec;
    [|now rewrite stop_recording_while_idle].
  destruct H as [Hp _]. rewrite (stop_recording_stages st Hrec).
  destruct (conclude_frame (load_once cfg h (halt cfg st))) as (Hs & Hq & _).
  destruct (load_once_frame (halt cfg st))
    as (_ & _ & _ & _ & Hp' & Hq' & _).
  destruct (halt_frame st) as (_ & Hnone & _).
  unfold one_child. rewrite Hs, Hq, Hp', Hq', Hnone, halt_procs.
  split; [|reflexivity]. rewrite Hp.
  destruct (record_process (self st)); [apply difference_diag_L | reflexivity].
Qed.

Lemma one_child_load (st : State) :
  one_child st -> one_child (load_once cfg h st).
Proof.
  intros [Hp Hn].
  destruct (load_once_frame st) as (_ & _ & _ & Hr & Hq & Hs & _).
  unfold one_child. now rewrite Hr, Hq, Hs.
Qed.

Lemma one_child_perform (st : State) (c : call) :
  one_child st -> one_child (perform cfg h st c).
Proof.
  destruct c; simpl;
    auto using one_child_start, one_child_stop, one_child_load.
Qed.

Lemma one_child_calls (calls : list call) (st : State) :
  one_child st -> one_child (fold_left (perform cfg h) calls st).
Proof.
  revert st; induction calls as [|c calls IH]; intros st H; simpl; [exact H|].
  apply IH, one_child_perform, H.
Qed.

Lemma one_child_size (st : State) : one_child st -> (size (procs (world st)) <= 1)%nat.
Proof.
  intros [-> _]. destruct (record_process (self st)).
  - rewrite size_singleton. lia.
  - rewrite size_empty. lia.
Qed.

(** For every sequence of calls from the start of the program, at most
    one capture child is alive. *)
Lemma at_most_one_capture_child (calls : list call) :
  (size (procs (world (fold_left (perform cfg h) calls (__init__ cfg)))) <= 1)%nat.
Proof. apply one_child_size, one_child_calls, one_child_init. Qed.

End Session.

(** ** The transcription pipeline *)

Section Pipeline.

Context (cfg : Config) (h : Host).

(** The trace of [stop_recording] when the model is loaded and the
    transcription raises nothing. *)
Lemma stop_recording_ready (st : State) (f : string) (m : model_object) :
  recording (self st) = true ->
  temp_file (self st) = Some f ->
  model_loaded (self st) = true ->
  model (self st) = Some m ->
  Py.truthy_opt (model_error (self st)) = false ->
  raises (transcribe h (transcribed (world st))) = None ->
  emitted st (stop_recording cfg h st)
  = stop_prefix cfg st ++
    [Transcribe f 5 true] ++
    deliver cfg h (assemble (segments (transcribe h (transcribed (world st))))) ++
    (if bool_decide (f ∈ files (world st)) then [Unlink f] else []).
Proof.
  intros Hrec Hf Hl Hm He Hr.
  assert (E : out (world (stop_recording cfg h st))
              = out (world st) ++
                stop_prefix cfg st ++ [Transcribe f 5 true] ++
                deliver cfg h
                  (assemble (segments (transcribe h (transcribed (world st))))) ++
                (if bool_decide (f ∈ files (world st)) then [Unlink f] else [])).
  { unfold stop_recording, stop_prefix. rewrite Hrec. simpl.
    destruct (record_process (self st)) as [pid|]; simpl;
      rewrite Hl; simpl; rewrite He; unfold transcription; simpl;
      rewrite Hm, Hf; simpl; rewrite Hr; unfold cleanup; simpl; rewrite Hf;
      destruct (bool_decide (f ∈ files (world st))); simpl;
      rewrite <- ?app_assoc; simpl; rewrite ?app_nil_r; reflexivity. }
  unfold emitted. rewrite E. apply drop_app_length.
Qed.

Lemma notify_no_sink (title message icon : string) (timeout : Z) :
  existsb is_clipboard (notify cfg title message icon timeout) = false /\
  existsb is_typing (notify cfg title message icon timeout) = false.
Proof. unfold notify. destruct (NOTIFICATIONS cfg); split; reflexivity. Qed.

Lemma stop_prefix_no_sink (st : State) :
  existsb is_clipboard (stop_prefix cfg st) = false /\
  existsb is_typing (stop_prefix cfg st) = false.
Proof.
  unfold stop_prefix.
  destruct (notify_no_sink "Transcribing..." "Processing your speech"
              "emblem-synchronizing" 30000) as [Hc Ht].
  destruct (record_process (self st)); simpl; rewrite Hc, Ht; split; reflexivity.
Qed.

Lemma copy_to_clipboard_sink (t : string) :
  existsb is_clipboard (copy_to_clipboard h t) = true /\
  existsb is_typing (copy_to_clipboard h t) = false.
Proof.
  unfold copy_to_clipboard, which.
  destruct (env_set h "WAYLAND_DISPLAY");
    [destruct (bool_decide ("wl-copy" ∈ on_path h))
    |destruct (env_set h "DISPLAY");
     [destruct (bool_decide ("xclip" ∈ on_path h))|]];
    split; reflexivity.
Qed.

Lemma type_text_sink (t : string) :
  existsb is_clipboard (type_text h t) = false /\
  existsb is_typing (type_text h t) = true.
Proof.
  unfold type_text. destruct (env_set h "WAYLAND_DISPLAY"); split; reflexivity.
Qed.

Lemma unlink_no_sink (b : bool) (f : string) :
  existsb is_clipboard (if b then [Unlink f] else []) = false /\
  existsb is_typing (if b then [Unlink f] else []) = false.
Proof. destruct b; split; reflexivity. Qed.

(** Which sinks [deliver] reaches. *)
Lemma deliver_sinks (t : string) :
  existsb is_clipboard (deliver cfg h t) = Py.truthy t /\
  existsb is_typing (deliver cfg h t) = Py.truthy t && AUTO_TYPE cfg.
Proof.
  unfold deliver. destruct (Py.truthy t); lazy beta iota.
  - rewrite !existsb_app.
    destruct (copy_to_clipboard_sink t) as [-> ->].
    destruct (notify_no_sink "Copied!"
                (Py.slice_to 100 t +:+ (if (100 <? Py.len t)%nat then "..." else ""))
                "emblem-ok-symbolic" 3000) as [_ ->].
    destruct (AUTO_TYPE cfg).
    + destruct (type_text_sink t) as [_ ->]. auto.
    + auto.
  - rewrite !existsb_app.
    destruct (notify_no_sink "No speech detected" "Try speaking louder"
                "dialog-warning" 2000) as [-> ->]. auto.
Qed.

Lemma truthy_empty (t : string) : Py.truthy t = false <-> t = "".
Proof. destruct t; simpl; split; congruence. Qed.

Lemma slice_to_substring (n : nat) (s : string) :
  Py.slice_to n s = substring 0 n s.
Proof.
  revert s; induction n as [|n IH]; intros [|c s]; simpl; try reflexivity.
  now rewrite IH.
Qed.

Lemma slice_to_all (n : nat) (s : string) :
  (String.length s <= n)%nat -> Py.slice_to n s = s.
Proof.
  revert s; induction n as [|n IH]; intros [|c s]; simpl; try reflexivity.
  - lia.
  - intros H. rewrite IH; [reflexivity | lia].
Qed.

(** The preview in the notification: the text itself up to 100
    characters, and its first 100 characters and "..." beyond. *)
Lemma preview_spec (t : string) :
  Py.slice_to 100 t +:+ (if (100 <? Py.len t)%nat then "..." else "")
  = if (100 <? String.length t)%nat
    then substring 0 100 t +:+ "..."
    else t.
Proof.
  unfold Py.len. destruct (100 <? String.length t)%nat eqn:E.
  - now rewrite slice_to_substring.
  - apply Nat.ltb_ge in E. rewrite slice_to_all by exact E.
    apply append_empty_r.
Qed.

(** The trace of [stop_recording] around [deliver], and the sinks that
    the whole call reaches. *)
Lemma stop_recording_delivers (st : State) (f : string) (m : model_object) :
  recording (self st) = true ->
  temp_file (self st) = Some f ->
  model_loaded (self st) = true ->
  model (self st) = Some m ->
  Py.truthy_opt (model_error (self st)) = false ->
  raises (transcribe h (transcribed (world st))) = None ->
  let transcript := assemble (segments (transcribe h (transcribed (world st)))) in
  let done := emitted st (stop_recording cfg h st) in
  done = (stop_prefix cfg st ++ [Transcribe f 5 true]) ++
         deliver cfg h transcript ++
         (if bool_decide (f ∈ files (world st)) then [Unlink f] else []) /\
  existsb is_clipboard done = Py.truthy transcript /\
  existsb is_typing done = Py.truthy transcript && AUTO_TYPE cfg.
Proof.
  intros Hrec Hf Hl Hm He Hr transcript done.
  assert (E : done = (stop_prefix cfg st ++ [Transcribe f 5 true]) ++
                     deliver cfg h transcript ++
                     (if bool_decide (f ∈ files (world st))
                      then [Unlink f] else [])).
  { unfold done. rewrite (stop_recording_ready st f m) by assumption.
    now rewrite <- !app_assoc. }
  split; [exact E|]. rewrite E, !existsb_app. simpl.
  destruct (stop_prefix_no_sink st) as [-> ->].
  destruct (deliver_sinks transcript) as [-> ->].
  destruct (unlink_no_sink (bool_decide (f ∈ files (world st))) f) as [-> ->].
  rewrite !orb_false_r. auto.
Qed.

End Pipeline.

(** C3: with the model loaded and a transcription that raises nothing,
    [stop_recording] does the following between the call of the model
    and the deletion of the file.  For an empty transcript it prints "No
    speech detected", notifies, and reaches no sink.  For any other
    transcript it runs the clipboard sink, then the typing sink exactly
    when [AUTO_TYPE] is set, prints the text and notifies "Copied!" with
    the text itself when it has at most 100 characters and with its
    first 100 characters followed by "..." when it has more. *)
Theorem pipeline_fan_out (cfg : Config) (h : Host) (st : State)
    (f : string) (m : model_object) :
  recording (self st) = true ->
  temp_file (self st) = Some f ->
  model_loaded (self st) = true ->
  model (self st) = Some m ->
  Py.truthy_opt (model_error (self st)) = false ->
  raises (transcribe h (transcribed (world st))) = None ->
  let transcript := assemble (segments (transcribe h (transcribed (world st)))) in
  let done := emitted st (stop_recording cfg h st) in
  let before := stop_prefix cfg st ++ [Transcribe f 5 true] in
  let after := if bool_decide (f ∈ files (world st)) then [Unlink f] else [] in
  (transcript = "" ->
   done = before ++
          [Print "No speech detected"] ++
          notify cfg "No speech detected" "Try speaking louder"
            "dialog-warning" 2000 ++
          after /\
   existsb is_clipboard done = false /\
   existsb is_typing done = false) /\
  (transcript <> "" ->
   done = before ++
          copy_to_clipboard h transcript ++
          (if AUTO_TYPE cfg then type_text h transcript else []) ++
          [Print ("Copied: " +:+ transcript)] ++
          notify cfg "Copied!"
            (if (100 <? String.length transcript)%nat
             then substring 0 100 transcript +:+ "..."
             else transcript)
            "emblem-ok-symbolic" 3000 ++
          after /\
   existsb is_clipboard done = true /\
   existsb is_typing done = AUTO_TYPE cfg).
Proof.
  intros Hrec Hf Hl Hm He Hr transcript done before after.
  destruct (stop_recording_delivers cfg h st f m Hrec Hf Hl Hm He Hr)
    as (E & Sc & St).
  fold transcript done before after in E, Sc, St. split.
  - intros Ht. rewrite Sc, St, E. unfold deliver. rewrite Ht. simpl.
    rewrite <- ?app_assoc. auto.
  - intros Ht. rewrite Sc, St, E. unfold deliver.
    destruct (Py.truthy transcript) eqn:T;
      [|now apply truthy_empty in T].
    rewrite preview_spec, <- ?app_assoc. auto.
Qed.

(** On the desktop, with the hotkey held and "hello world" heard. *)
Lemma pipeline_fan_out_on_desktop :
  emitted (held desktop) (stop_recording defaults desktop (held desktop))
  = [Terminate 4001; Wait 4001; Print "Transcribing...";
     Run ["notify-send"; "-a"; "SoupaWhisper"; "-i"; "emblem-synchronizing";
          "-t"; "30000"; "-h";
          "string:x-canonical-private-synchronous:soupawhisper";
          "Transcribing..."; "Processing your speech"];
     Transcribe "/tmp/tmp0.wav" 5 true;
     Osc52 "hello world";
     Run ["which"; "xclip"];
     Communicate ["xclip"; "-selection"; "clipboard"] "hello world";
     Run ["xdotool"; "type"; "--clearmodifiers"; "hello world"];
     Print "Copied: hello world";
     Run ["notify-send"; "-a"; "SoupaWhisper"; "-i"; "emblem-ok-symbolic";
          "-t"; "3000"; "-h";
          "string:x-canonical-private-synchronous:soupawhisper";
          "Copied!"; "hello world"];
     Unlink "/tmp/tmp0.wav"].
Proof.
  assert (H : recording (self (held desktop)) = true /\
              temp_file (self (held desktop)) = Some "/tmp/tmp0.wav" /\
              model_loaded (self (held desktop)) = true /\
              model (self (held desktop)) = Some whisper_model /\
              Py.truthy_opt (model_error (self (held desktop))) = false /\
              raises (transcribe desktop (transcribed (world (held desktop))))
              = None)
    by (vm_compute; auto 10).
  destruct H as (H1 & H2 & H3 & H4 & H5 & H6).
  destruct (pipeline_fan_out defaults desktop (held desktop)
              "/tmp/tmp0.wav" whisper_model H1 H2 H3 H4 H5 H6) as [_ H].
  destruct H as (E & _ & _); [vm_compute; discriminate|].
  rewrite E. vm_compute. reflexivity.
Defined.

(** ** Transcripts of white space *)

Section Blank.

Lemma append_is_empty (a b : string) : a +:+ b = "" -> a = "" /\ b = "".
Proof. destruct a; [auto | discriminate]. Qed.

Lemma concat_blank (parts : list string) :
  Forall (fun p => p = "") parts ->
  String.concat " " parts = spaces (length parts - 1).
Proof.
  induction 1 as [|p parts -> _ IH]; [reflexivity|].
  destruct parts as [|q parts]; [reflexivity|].
  simpl in *. rewrite Nat.sub_0_r in IH. now rewrite IH.
Qed.

Lemma assemble_blank (segs : list Segment) :
  Forall blank segs -> assemble segs = spaces (length segs - 1).
Proof.
  intros H. unfold assemble. rewrite join_concat, concat_blank.
  - now rewrite length_map.
  - apply Forall_map. exact H.
Qed.

Lemma all_space_spaces (n : nat) : all_space (spaces n) = true.
Proof. induction n; simpl; auto. Qed.

Lemma concat_is_empty (parts : list string) :
  String.concat " " parts = "" <-> parts = [] \/ parts = [""].
Proof.
  split.
  - destruct parts as [|p [|q parts]]; simpl; auto.
    + intros ->. auto.
    + intros [_ H]%append_is_empty. discriminate H.
  - intros [-> | ->]; reflexivity.
Qed.

Lemma assemble_is_empty (segs : list Segment) :
  assemble segs = "" <-> segs = [] \/ exists s, segs = [s] /\ blank s.
Proof.
  unfold assemble. rewrite join_concat, concat_is_empty. split.
  - intros [H | H].
    + left. now destruct segs.
    + right. destruct segs as [|s [|s' segs]]; try discriminate.
      exists s. now injection H.
  - intros [-> | (s & -> & Hs)]; [now left|]. right. simpl. now rewrite Hs.
Qed.

Lemma is_no_speech_spec (e : effect) :
  is_no_speech e = true <-> e = Print "No speech detected".
Proof.
  destruct e; simpl; try (split; [discriminate | intros [=]]).
  rewrite String.eqb_eq. split; [now intros -> | now intros [= ->]].
Qed.

Lemma in_no_speech (l : list effect) :
  In (Print "No speech detected") l <-> existsb is_no_speech l = true.
Proof.
  rewrite existsb_exists. split.
  - intros H. eexists; split; [exact H | reflexivity].
  - intros (e & H & ->%is_no_speech_spec). exact H.
Qed.

Lemma notify_no_speech (cfg : Config) (title message icon : string) (timeout : Z) :
  existsb is_no_speech (notify cfg title message icon timeout) = false.
Proof. unfold notify. destruct (NOTIFICATIONS cfg); reflexivity. Qed.

Lemma deliver_no_speech (cfg : Config) (h : Host) (t : string) :
  existsb is_no_speech (deliver cfg h t) = negb (Py.truthy t).
Proof.
  unfold deliver. destruct (Py.truthy t); lazy beta iota.
  - rewrite !existsb_app, notify_no_speech.
    assert (Hc : existsb is_no_speech (copy_to_clipboard h t) = false).
    { unfold copy_to_clipboard, which.
      destruct (env_set h "WAYLAND_DISPLAY");
        [destruct (bool_decide ("wl-copy" ∈ on_path h))
        |destruct (env_set h "DISPLAY");
         [destruct (bool_decide ("xclip" ∈ on_path h))|]];
        reflexivity. }
    assert (Ht : existsb is_no_speech (type_text h t) = false).
    { unfold type_text. destruct (env_set h "WAYLAND_DISPLAY"); reflexivity. }
    rewrite Hc. destruct (AUTO_TYPE cfg); [rewrite Ht|]; reflexivity.
  - reflexivity.
Qed.

Lemma stop_prefix_no_speech (cfg : Config) (st : State) :
  existsb is_no_speech (stop_prefix cfg st) = false.
Proof.
  unfold stop_prefix. rewrite !existsb_app, notify_no_speech.
  destruct (record_process (self st)); reflexivity.
Qed.

End Blank.

(** C10: whether the transcript counts as speech is decided by the
    joined string being empty.  Segments that are all white space give a
    transcript of one space less than there are segments; with two or
    more of them the transcript is white space and not empty, it goes
    to the clipboard sink (and to the typing sink exactly when
    [AUTO_TYPE] is set) and "No speech detected" is not printed.  The
    transcript is empty, and "No speech detected" is printed, exactly
    when there is no segment or one segment that is white space only. *)
Theorem blank_segments_are_delivered (cfg : Config) (h : Host) (st : State)
    (f : string) (m : model_object) :
  recording (self st) = true ->
  temp_file (self st) = Some f ->
  model_loaded (self st) = true ->
  model (self st) = Some m ->
  Py.truthy_opt (model_error (self st)) = false ->
  raises (transcribe h (transcribed (world st))) = None ->
  let segs := segments (transcribe h (transcribed (world st))) in
  let transcript := assemble segs in
  let done := emitted st (stop_recording cfg h st) in
  (Forall blank segs -> transcript = spaces (length segs - 1)) /\
  (Forall blank segs -> (2 <= length segs)%nat ->
   transcript <> "" /\
   all_space transcript = true /\
   In (Osc52 transcript) done /\
   existsb is_clipboard done = true /\
   existsb is_typing done = AUTO_TYPE cfg /\
   ~ In (Print "No speech detected") done) /\
  (transcript = "" <-> segs = [] \/ exists s, segs = [s] /\ blank s) /\
  (In (Print "No speech detected") done <-> transcript = "").
Proof.
  intros Hrec Hf Hl Hm He Hr segs transcript done.
  assert (E : done = stop_prefix cfg st ++ [Transcribe f 5 true] ++
                     deliver cfg h transcript ++
                     (if bool_decide (f ∈ files (world st))
                      then [Unlink f] else []))
    by (apply (stop_recording_ready cfg h st f m); assumption).
  assert (N : In (Print "No speech detected") done <-> transcript = "").
  { rewrite in_no_speech, E, !existsb_app, stop_prefix_no_speech,
      deliver_no_speech. simpl.
    destruct (bool_decide (f ∈ files (world st))); simpl;
      rewrite ?orb_false_r, negb_true_iff; apply truthy_empty. }
  split; [apply assemble_blank|]. split; [|split; [apply assemble_is_empty|exact N]].
  intros Hb Hn.
  assert (Ht : transcript <> "").
  { unfold transcript. rewrite (assemble_blank segs Hb).
    destruct (length segs) as [|[|n]]; simpl; [lia | lia | discriminate]. }
  assert (T : Py.truthy transcript = true).
  { destruct (Py.truthy transcript) eqn:T; [reflexivity|].
    now apply truthy_empty in T. }
  destruct (stop_recording_delivers cfg h st f m Hrec Hf Hl Hm He Hr)
    as (D & Sc & St).
  fold segs transcript done in D, Sc, St. rewrite T in Sc, St.
  split; [exact Ht|]. split.
  { unfold transcript. rewrite (assemble_blank segs Hb). apply all_space_spaces. }
  split.
  { rewrite D. apply in_or_app. right. apply in_or_app. left.
    unfold deliver. rewrite T. apply in_or_app. left.
    unfold copy_to_clipboard. left. reflexivity. }
  split; [exact Sc|]. split; [exact St|].
  intros H. apply Ht, N, H.
Qed.

(** On the desktop, with the hotkey held and two blank segments heard:
    one space is copied and typed. *)
Lemma blank_segments_on_desktop :
  let h := desktop_with Loaded two_blanks in
  Forall blank (segments two_blanks) /\
  assemble (segments two_blanks) = " " /\
  In (Osc52 " ") (emitted (held h) (stop_recording defaults h (held h))) /\
  existsb is_typing (emitted (held h) (stop_recording defaults h (held h))) = true /\
  ~ In (Print "No speech detected")
      (emitted (held h) (stop_recording defaults h (held h))).
Proof.
  intros h.
  assert (Hb : Forall blank (segments two_blanks))
    by (repeat constructor).
  assert (R : recording (self (held h)) = true /\
              temp_file (self (held h)) = Some "/tmp/tmp0.wav" /\
              model_loaded (self (held h)) = true /\
              model (self (held h)) = Some whisper_model /\
              Py.truthy_opt (model_error (self (held h))) = false /\
              raises (transcribe h (transcribed (world (held h)))) = None)
    by (vm_compute; auto 10).
  destruct R as (H1 & H2 & H3 & H4 & H5 & H6).
  destruct (blank_segments_are_delivered defaults h (held h)
              "/tmp/tmp0.wav" whisper_model H1 H2 H3 H4 H5 H6) as (_ & H & _).
  destruct (H Hb) as (_ & _ & Hin & _ & Ht & Hno); [simpl; lia|].
  split; [exact Hb|]. split; [reflexivity|]. split; [exact Hin|].
  split; [exact Ht | exact Hno].
Defined.

(** ** Where the session departs from its description *)

(** C1: the hotkey goes down while the model is loading, the loading
    then fails, the hotkey goes up.  [stop_recording] returns at the
    report "Cannot transcribe", before the [try] statement whose
    [finally] clause deletes the file: the session is idle and the
    temporary file is still on disk. *)
Theorem stop_recording_keeps_file_when_model_failed :
  let h := desktop_with cuda_failure hello_world in
  let st1 := start_recording defaults h (__init__ defaults) in
  let st2 := stop_recording defaults h st1 in
  recording (self st1) = true /\
  temp_file (self st1) = Some "/tmp/tmp0.wav" /\
  "/tmp/tmp0.wav" ∈ files (world st1) /\
  Idle st2 /\
  Py.truthy_opt (model_error (self st2)) = true /\
  "/tmp/tmp0.wav" ∈ files (world st2) /\
  ~ In (Unlink "/tmp/tmp0.wav") (out (world st2)).
Proof.
  intros h st1 st2.
  assert (Hrec : recording (self st1) = true) by reflexivity.
  assert (Hf : temp_file (self st1) = Some "/tmp/tmp0.wav") by reflexivity.
  assert (Hin : "/tmp/tmp0.wav" ∈ files (world st1))
    by (apply (bool_decide_unpack _); vm_compute; exact I).
  assert (He : Py.truthy_opt (model_error (self st2)) = true) by reflexivity.
  destruct (stop_recording_outcome defaults h st1 _ Hrec Hf) as [Hidle Hfile].
  split; [exact Hrec|]. split; [exact Hf|]. split; [exact Hin|].
  split; [exact Hidle|]. split; [exact He|]. split.
  - apply Hfile. split; assumption.
  - vm_compute. intuition discriminate.
Qed.

(** C2: the model's loading fails with an exception whose message is
    empty.  [model_error] is then the empty string, which the test of
    [start_recording] takes for no error: the next press of the hotkey
    creates a temporary file and spawns a capture child. *)
Theorem start_recording_after_silent_load_failure :
  let h := desktop_with silent_failure hello_world in
  let st1 := load_once defaults h (__init__ defaults) in
  let st2 := start_recording defaults h st1 in
  model_loaded (self st1) = true /\
  model (self st1) = None /\
  model_error (self st1) = Some "" /\
  recording (self st2) = true /\
  temp_file (self st2) = Some "/tmp/tmp0.wav" /\
  record_process (self st2) = Some 4001%positive /\
  files (world st2) = {[ "/tmp/tmp0.wav" ]} /\
  procs (world st2) = {[ 4001%positive ]} /\
  st2 <> st1.
Proof.
  intros h st1 st2.
  repeat split; try reflexivity; try (vm_compute; reflexivity).
  intros E. apply (f_equal (fun st => recording (self st))) in E.
  discriminate E.
Qed.

(** ** Shutdown *)

(** The claim of C5 fails: after SIGINT the process has not exited with
    status 0, it was killed by signal 9. *)
Lemma sigint_status_is_not_zero :
  process (world (step defaults desktop (held desktop) SIGINT))
  = Killed signal.SIGKILL /\
  process (world (step defaults desktop (held desktop) SIGINT)) <> Exited 0.
Proof. split; [reflexivity | discriminate]. Qed.

(** C5, amended: on SIGINT the handler prints "Exiting..." and kills
    its own process with SIGKILL.  The process ends at once, killed by
    signal 9: it has no exit status, and a shell reports 137.  Nothing
    is drained: a recording that runs keeps its flag, its capture child
    stays alive and its temporary file stays on disk; and whatever
    happens afterwards changes nothing. *)
Theorem sigint_kills_at_once (cfg : Config) (h : Host) (st : State)
    (future : list happening) :
  process (world st) = Alive ->
  let st' := step cfg h st SIGINT in
  process (world st') = Killed signal.SIGKILL /\
  emitted st st' = [Print (String "010" "Exiting..."); Kill signal.SIGKILL] /\
  recording (self st') = recording (self st) /\
  record_process (self st') = record_process (self st) /\
  temp_file (self st') = temp_file (self st) /\
  procs (world st') = procs (world st) /\
  files (world st') = files (world st) /\
  main_loop cfg h future st' = st'.
Proof.
  intros Ha. unfold step. rewrite Ha. simpl.
  repeat split; try reflexivity.
  - unfold emitted. simpl. rewrite <- app_assoc. apply drop_app_length.
  - induction future as [|x future IH]; [reflexivity|]. exact IH.
Qed.

(** On the desktop, SIGINT while the hotkey is held: the capture child
    and the temporary file are left behind. *)
Lemma sigint_while_recording_on_desktop :
  let st := held desktop in
  let st' := step defaults desktop st SIGINT in
  process (world st) = Alive /\
  process (world st') = Killed signal.SIGKILL /\
  recording (self st') = true /\
  procs (world st') = {[ 4001%positive ]} /\
  files (world st') = {[ "/tmp/tmp0.wav" ]}.
Proof.
  intros st st'.
  assert (Ha : process (world st) = Alive) by reflexivity.
  destruct (sigint_kills_at_once defaults desktop st [] Ha)
    as (Hk & _ & Hr & _ & _ & Hp & Hf & _).
  split; [exact Ha|]. split; [exact Hk|].
  split; [exact (eq_trans Hr eq_refl)|].
  split; (etransitivity; [eassumption | vm_compute; reflexivity]).
Defined.

(** ** The main loop *)

Section MainLoop.

Context (cfg : Config) (h : Host).

Lemma on_self_selector_id (st : State) :
  on_self (set_selector (selector (self st))) st = st.
Proof. destruct st as [[] w]. reflexivity. Qed.

Lemma on_self_selector_twice (s s' : gset nat) (st : State) :
  on_self (set_selector s) (on_self (set_selector s') st)
  = on_self (set_selector s) st.
Proof. reflexivity. Qed.

(** The session does not look at the selector. *)
Lemma start_recording_selector (s : gset nat) (st : State) :
  start_recording cfg h (on_self (set_selector s) st)
  = on_self (set_selector s) (start_recording cfg h st).
Proof.
  unfold start_recording. simpl.
  destruct (recording (self st) || Py.truthy_opt (model_error (self st)));
    [reflexivity|].
  simpl. destruct (get_record_command h _). reflexivity.
Qed.

Lemma halt_selector (s : gset nat) (st : State) :
  halt cfg (on_self (set_selector s) st)
  = on_self (set_selector s) (halt cfg st).
Proof. unfold halt. simpl. destruct (record_process (self st)); reflexivity. Qed.

Lemma load_once_selector (s : gset nat) (st : State) :
  load_once cfg h (on_self (set_selector s) st)
  = on_self (set_selector s) (load_once cfg h st).
Proof.
  unfold load_once, _load_model. simpl.
  destruct (model_loaded (self st)); [reflexivity|].
  destruct (WhisperModel h); reflexivity.
Qed.

Lemma transcription_selector (s : gset nat) (st : State) :
  transcription cfg h (on_self (set_selector s) st)
  = on_self (set_selector s) (transcription cfg h st).
Proof.
  unfold transcription. simpl.
  destruct (model (self st)); [|reflexivity].
  destruct (temp_file (self st)); [|reflexivity].
  destruct (raises (transcribe h (transcribed (world st)))); reflexivity.
Qed.

Lemma cleanup_selector (s : gset nat) (st : State) :
  cleanup (on_self (set_selector s) st) = on_self (set_selector s) (cleanup st).
Proof.
  unfold cleanup. simpl. destruct (temp_file (self st)) as [f|]; [|reflexivity].
  destruct (bool_decide (f ∈ files (world st))); reflexivity.
Qed.

Lemma conclude_selector (s : gset nat) (st : State) :
  conclude cfg h (on_self (set_selector s) st)
  = on_self (set_selector s) (conclude cfg h st).
Proof.
  unfold conclude. simpl.
  destruct (Py.truthy_opt (model_error (self st))); [reflexivity|].
  now rewrite transcription_selector, cleanup_selector.
Qed.

Lemma stop_recording_selector (s : gset nat) (st : State) :
  stop_recording cfg h (on_self (set_selector s) st)
  = on_self (set_selector s) (stop_recording cfg h st).
Proof.
  destruct (recording (self st)) eqn:Hrec.
  - rewrite !stop_recording_stages by exact Hrec.
    now rewrite halt_selector, load_once_selector, conclude_selector.
  - now rewrite !stop_recording_while_idle.
Qed.

Lemma on_key_event_selector (s : gset nat) (event : InputEvent) (st : State) :
  on_key_event cfg h event (on_self (set_selector s) st)
  = on_self (set_selector s) (on_key_event cfg h event st).
Proof.
  unfold on_key_event.
  destruct (code event =? HOTKEY cfg); [|reflexivity].
  destruct (value event =? 1); [apply start_recording_selector|].
  destruct (value event =? 0); [apply stop_recording_selector | reflexivity].
Qed.

Lemma on_key_event_frame (event : InputEvent) (st : State) :
  let st' := on_key_event cfg h event st in
  process (world st') = process (world st) /\
  selector (self st') = selector (self st) /\
  running (self st') = running (self st).
Proof.
  unfold on_key_event.
  destruct (code event =? HOTKEY cfg); [|auto].
  destruct (value event =? 1).
  { destruct (start_recording_frame cfg h st) as (? & ? & ? & _). auto. }
  destruct (value event =? 0); [|auto].
  destruct (stop_recording_frame cfg h st) as (? & ? & ? & _). auto.
Qed.

(** Reading events from a device. *)
Lemma read_events_frame (d : nat) (events : list InputEvent) (st : State) :
  let st' := read_device cfg h st (d, Events events) in
  process (world st') = process (world st) /\
  selector (self st') = selector (self st) /\
  running (self st') = running (self st).
Proof.
  unfold read_device. simpl. destruct (process (world st)) eqn:Ha; [|auto..].
  rewrite <- Ha. clear Ha.
  revert st; induction events as [|event events IH]; intros st; simpl; [auto|].
  destruct (type event =? ecodes.EV_KEY); [|apply IH].
  destruct (on_key_event_frame event st) as (Hp & Hs & Hr).
  destruct (IH (on_key_event cfg h event st)) as (Hp' & Hs' & Hr').
  repeat split; congruence.
Qed.

Lemma read_events_selector (s : gset nat) (d : nat)
    (events : list InputEvent) (st : State) :
  read_device cfg h (on_self (set_selector s) st) (d, Events events)
  = on_self (set_selector s) (read_device cfg h st (d, Events events)).
Proof.
  unfold read_device. simpl. destruct (process (world st)); [|reflexivity..].
  revert st; induction events as [|event events IH]; intros st; simpl;
    [reflexivity|].
  destruct (type event =? ecodes.EV_KEY); [|apply IH].
  rewrite on_key_event_selector. apply IH.
Qed.

Lemma readable_pass_selector (s : gset nat) (items : list (nat * read_result))
    (st : State) :
  fold_left (read_device cfg h) (readable_only items) (on_self (set_selector s) st)
  = on_self (set_selector s)
      (fold_left (read_device cfg h) (readable_only items) st).
Proof.
  revert st; induction items as [|[d r] items IH]; intros st; [reflexivity|].
  destruct r as [events|]; simpl; [|apply IH].
  rewrite read_events_selector. apply IH.
Qed.

Lemma failing_cons_error (d : nat) (items : list (nat * read_result)) :
  failing ((d, ReadOSError) :: items) = {[ d ]} ∪ failing items.
Proof. reflexivity. Qed.

Lemma failing_cons_events (d : nat) (events : list InputEvent)
    (items : list (nat * read_result)) :
  failing ((d, Events events) :: items) = failing items.
Proof. reflexivity. Qed.

(** A pass over the devices that [select] returns: the devices that
    can be read are served in their order, and the devices whose read
    fails leave the selector. *)
Lemma pass_over_selected (ready : list (nat * read_result)) :
  forall (registered : gset nat) (st : State),
    process (world st) = Alive ->
    registered ⊆ selector (self st) ->
    fold_left (read_device cfg h) (select registered ready) st
    = on_self
        (set_selector (selector (self st) ∖ failing (select registered ready)))
        (fold_left (read_device cfg h)
           (readable_only (select registered ready)) st).
Proof.
  induction ready as [|[d r] ready IH]; intros registered st Ha Hsub.
  - simpl. unfold failing. simpl. rewrite difference_empty_L.
    symmetry. apply on_self_selector_id.
  - simpl. destruct (bool_decide (d ∈ registered)) eqn:Hd; [|now apply IH].
    apply bool_decide_eq_true_1 in Hd. destruct r as [events|].
    + rewrite failing_cons_events. simpl.
      destruct (read_events_frame d events st) as (Hp & Hs & _).
      rewrite IH; [now rewrite Hs | congruence |].
      rewrite Hs. apply subseteq_difference_l, Hsub.
    + rewrite failing_cons_error. simpl.
      assert (E : read_device cfg h st (d, ReadOSError)
                  = on_self (set_selector (selector (self st) ∖ {[ d ]})) st).
      { unfold read_device, unregister. rewrite Ha. simpl.
        rewrite bool_decide_eq_true_2; [reflexivity | apply Hsub, Hd]. }
      rewrite E, IH; [|exact Ha|].
      2:{ simpl. intros x [Hx Hn]%elem_of_difference.
          apply elem_of_difference. split; [apply Hsub, Hx | exact Hn]. }
      rewrite readable_pass_selector. simpl.
      rewrite difference_difference_l_L. reflexivity.
Qed.

Lemma select_registered (ready : list (nat * read_result)) :
  forall (registered : gset nat) (d : nat) (r : read_result),
    In (d, r) (select registered ready) -> d ∈ registered.
Proof.
  induction ready as [|[d' r'] ready IH]; intros registered d r; simpl; [tauto|].
  destruct (bool_decide (d' ∈ registered)) eqn:Hd.
  - apply bool_decide_eq_true_1 in Hd.
    intros [[= <- <-] | Hin]; [exact Hd|].
    apply IH in Hin. now apply elem_of_difference in Hin as [Hin _].
  - apply IH.
Qed.

Lemma select_empty (ready : list (nat * read_result)) : select ∅ ready = [].
Proof.
  induction ready as [|[d r] ready IH]; simpl; [reflexivity|].
  rewrite bool_decide_eq_false_2; [exact IH | apply not_elem_of_empty].
Qed.

Lemma elem_of_failing (d : nat) (items : list (nat * read_result)) :
  d ∈ failing items <-> In (d, ReadOSError) items.
Proof.
  unfold failing. rewrite elem_of_list_to_set, list_elem_of_In, in_map_iff.
  split.
  - intros ([d' r] & <- & [Hin Hf]%filter_In). simpl.
    destruct r; [discriminate Hf | exact Hin].
  - intros Hin. exists (d, ReadOSError). split; [reflexivity|].
    apply filter_In. auto.
Qed.

Lemma readable_pass_frame (items : list (nat * read_result)) (st : State) :
  let st' := fold_left (read_device cfg h) (readable_only items) st in
  process (world st') = process (world st) /\
  running (self st') = running (self st).
Proof.
  revert st; induction items as [|[d r] items IH]; intros st; [simpl; auto|].
  destruct r as [events|]; simpl; [|apply IH].
  destruct (read_events_frame d events st) as (Hp & _ & Hr).
  destruct (IH (read_device cfg h st (d, Events events))) as (Hp' & Hr').
  simpl in *. split; congruence.
Qed.

(** Without SIGINT the process stays alive and the loop keeps running,
    whatever the devices do. *)
Lemma step_alive (st : State) (x : happening) :
  no_sigint x = true ->
  process (world st) = Alive -> running (self st) = true ->
  process (world (step cfg h st x)) = Alive /\
  running (self (step cfg h st x)) = true.
Proof.
  intros Hx Ha Hr. unfold step. rewrite Ha.
  destruct x as [ready| |]; [|discriminate Hx|].
  - rewrite Hr, pass_over_selected by (exact Ha || reflexivity).
    destruct (readable_pass_frame (select (selector (self st)) ready) st)
      as (Hp & Hq).
    simpl in *. split; congruence.
  - destruct (load_once_frame cfg h st) as (Hp & _ & Hq & _).
    unfold load_once in *. simpl in *. split; congruence.
Qed.

Lemma main_loop_alive (future : list happening) :
  forall st : State,
    forallb no_sigint future = true ->
    process (world st) = Alive -> running (self st) = true ->
    process (world (main_loop cfg h future st)) = Alive /\
    running (self (main_loop cfg h future st)) = true.
Proof.
  induction future as [|x future IH]; intros st Hf Ha Hr; [auto|].
  simpl in Hf. apply andb_true_iff in Hf as [Hx Hf].
  destruct (step_alive st x Hx Ha Hr) as (Ha' & Hr').
  simpl. apply IH; assumption.
Qed.

End MainLoop.

(** C9: a turn of the main loop in which reading some devices raises
    [OSError].  Those devices leave the selector and every other
    registered device stays; the devices that can be read are served, in
    their order, as in a turn without the failures; the process stays
    alive and the loop keeps running, through every later turn and run
    of the loader; and once the selector is empty, every later turn
    finds nothing to read and changes nothing. *)
Theorem read_error_unregisters_device (cfg : Config) (h : Host) (st : State)
    (ready : list (nat * read_result)) :
  process (world st) = Alive ->
  running (self st) = true ->
  let selected := select (selector (self st)) ready in
  let st' := step cfg h st (Readable ready) in
  st' = on_self (set_selector (selector (self st) ∖ failing selected))
          (fold_left (read_device cfg h) (readable_only selected) st) /\
  (forall d : nat, In (d, ReadOSError) selected -> d ∉ selector (self st')) /\
  (forall d : nat,
      d ∈ selector (self st) -> ~ In (d, ReadOSError) selected ->
      d ∈ selector (self st')) /\
  process (world st') = Alive /\
  running (self st') = true /\
  (forall future : list happening,
      forallb no_sigint future = true ->
      process (world (main_loop cfg h future st')) = Alive /\
      running (self (main_loop cfg h future st')) = true) /\
  (selector (self st') = ∅ ->
   forall ready' : list (nat * read_result),
     step cfg h st' (Readable ready') = st').
Proof.
  intros Ha Hr selected st'.
  assert (E : st' = on_self (set_selector (selector (self st) ∖ failing selected))
                      (fold_left (read_device cfg h) (readable_only selected) st)).
  { unfold st', step. rewrite Ha, Hr.
    apply pass_over_selected; [exact Ha | reflexivity]. }
  destruct (step_alive cfg h st (Readable ready) eq_refl Ha Hr) as (Ha' & Hr').
  fold st' in Ha', Hr'.
  assert (S : selector (self st') = selector (self st) ∖ failing selected)
    by (rewrite E; reflexivity).
  split; [exact E|]. split; [|split; [|split; [exact Ha'|split; [exact Hr'|split]]]].
  - intros d Hin. rewrite S. apply not_elem_of_difference. right.
    now apply elem_of_failing.
  - intros d Hd Hin. rewrite S. apply elem_of_difference. split; [exact Hd|].
    now rewrite elem_of_failing.
  - intros future Hf. now apply main_loop_alive.
  - intros Hempty ready'. unfold step. rewrite Ha', Hr', Hempty, select_empty.
    reflexivity.
Qed.

(** On the desktop with its two keyboards registered: the first is
    unplugged in the turn in which the hotkey goes down on the second.
    The first leaves the selector, the second stays, and the recording
    starts. *)
Lemma read_error_on_desktop :
  let ready := [(3%nat, ReadOSError); (4%nat, Events [press])] in
  let st' := step defaults desktop monitoring (Readable ready) in
  selector (self monitoring) = {[ 3%nat; 4%nat ]} /\
  selector (self st') = {[ 4%nat ]} /\
  recording (self st') = true /\
  process (world st') = Alive.
Proof.
  intros ready st'.
  assert (Ha : process (world monitoring) = Alive) by reflexivity.
  assert (Hr : running (self monitoring) = true) by reflexivity.
  destruct (read_error_unregisters_device defaults desktop monitoring ready Ha Hr)
    as (E & _ & _ & Ha' & _).
  split; [vm_compute; reflexivity|].
  split; [|split; [|exact Ha']].
  - unfold st'. rewrite E. vm_compute. reflexivity.
  - unfold st'. rewrite E. vm_compute. reflexivity.
Defined.

(** * Further properties *)

(** ** Key code resolver *)

Section ResolverMore.

Lemma lower_upper_char (c : ascii) :
  Py.lower_char (Py.upper_char c) = Py.lower_char c.
Proof. destruct c as [[] [] [] [] [] [] [] []]; reflexivity. Qed.

Lemma lower_upper (s : string) : Py.lower (Py.upper s) = Py.lower s.
Proof.
  induction s as [|c s IH]; simpl; [reflexivity|].
  now rewrite lower_upper_char, IH.
Qed.



(** [get_hotkey] looks at the lower-cased name only. *)
Lemma get_hotkey_lower (a b : string) :
  Py.lower a = Py.lower b -> get_hotkey a = get_hotkey b.
Proof. intros E. unfold get_hotkey. now rewrite E. Qed.

Lemma char_not_alnum_unknown (c : ascii) :
  Py.isalnum c = false ->
  get_hotkey (String c "") = (ecodes.KEY_F12, [unknown_key_warning (String c "")]).
Proof.
  destruct c as [[] [] [] [] [] [] [] []]; intros H;
    try discriminate H; vm_compute; reflexivity.
Qed.

(** A name is recognized or falls back to F12 with the warning. *)
Lemma recognized_or_unknown (key_name : string) :
  recognized key_name \/
  get_hotkey key_name = (ecodes.KEY_F12, [unknown_key_warning key_name]).
Proof.
  destruct (ecodes.assoc (Py.lower key_name) KEY_MAP) as [code|] eqn:Hmap.
  { left. left. eauto. }
  destruct key_name as [|c [|c2 rest]].
  - right. reflexivity.
  - destruct (Py.isalnum c) eqn:Hc.
    + left. right. eauto.
    + right. now apply char_not_alnum_unknown.
  - right. unfold get_hotkey, unknown_key_warning. rewrite Hmap. reflexivity.
Qed.

End ResolverMore.




(** X3: the display name of a resolved hotkey resolves to the same code
    again, for every configured name, known or not: what the program
    shows as the hotkey can be written back into the configuration. *)
Theorem display_name_resolves_back (key_name : string) :
  get_hotkey (get_key_name (fst (get_hotkey key_name)))
  = (fst (get_hotkey key_name), []).
Proof.
  destruct (recognized_or_unknown key_name) as [[Hmap | (c & -> & Hc)] | E].
  - destruct (named_key_round_trip key_name Hmap) as [E ->].
    rewrite (get_hotkey_lower _ key_name (lower_upper key_name)). exact E.
  - destruct (char_key_round_trip c Hc) as [E ->].
    rewrite (get_hotkey_lower _ (String c "") (lower_upper (String c ""))).
    exact E.
  - rewrite E. reflexivity.
Qed.

(** ** Clipboard sink *)

(** X4: [copy_to_clipboard] writes the escape sequence first, whatever
    the environment, and pipes the text to at most one tool: to
    [wl-copy] under Wayland when it is installed, to [xclip] only when no
    Wayland display is set, an X display is set and [xclip] is installed.
    Under Wayland without [wl-copy] it does not fall back to [xclip]. *)
Theorem copy_to_clipboard_one_tool (h : Host) (t : string) :
  exists rest : list effect,
    copy_to_clipboard h t = Osc52 t :: rest /\
    (length (List.filter is_communicate rest) <= 1)%nat /\
    (forall (argv : list string) (input : string),
        In (Communicate argv input) rest <->
        input = t /\
        ((argv = ["wl-copy"] /\ env_set h "WAYLAND_DISPLAY" = true /\
          "wl-copy" ∈ on_path h) \/
         (argv = ["xclip"; "-selection"; "clipboard"] /\
          env_set h "WAYLAND_DISPLAY" = false /\
          env_set h "DISPLAY" = true /\ "xclip" ∈ on_path h))).
Proof.
  unfold copy_to_clipboard, which. eexists. split; [reflexivity|].
  destruct (env_set h "WAYLAND_DISPLAY") eqn:Hw.
  - destruct (bool_decide ("wl-copy" ∈ on_path h)) eqn:Hc.
    + apply bool_decide_eq_true_1 in Hc. split; [simpl; lia|].
      intros argv input. simpl. split.
      * intros [H | [[= <- <-] | []]]; [discriminate H|]. auto 10.
      * intros [-> [(-> & _) | (_ & H & _)]]; [auto | discriminate H].
    + apply bool_decide_eq_false_1 in Hc. split; [simpl; lia|].
      intros argv input. simpl. split.
      * intros [H | []]. discriminate H.
      * intros [_ [(_ & _ & H) | (_ & H & _)]]; [contradiction | discriminate H].
  - destruct (env_set h "DISPLAY") eqn:Hd.
    + destruct (bool_decide ("xclip" ∈ on_path h)) eqn:Hc.
      * apply bool_decide_eq_true_1 in Hc. split; [simpl; lia|].
        intros argv input. simpl. split.
        -- intros [H | [[= <- <-] | []]]; [discriminate H|]. auto 10.
        -- intros [-> [(_ & H & _) | (-> & _)]]; [discriminate H | auto].
      * apply bool_decide_eq_false_1 in Hc. split; [simpl; lia|].
        intros argv input. simpl. split.
        -- intros [H | []]. discriminate H.
        -- intros [_ [(_ & H & _) | (_ & _ & _ & H)]];
             [discriminate H | contradiction].
    + split; [simpl; lia|]. intros argv input. simpl. split; [tauto|].
      intros [_ [(_ & H & _) | (_ & _ & H & _)]]; discriminate H.
Qed.

(** ** Startup *)

(** Turn the tests of membership into propositions. *)
Ltac reflect_tests :=
  repeat match goal with
         | H : bool_decide _ = true |- _ => apply bool_decide_eq_true_1 in H
         | H : bool_decide _ = false |- _ => apply bool_decide_eq_false_1 in H
         end.

Ltac dependency_cases cfg h :=
  unfold check_dependencies, typing_tool, which;
  rewrite get_audio_recorder_cases;
  destruct (bool_decide ("pw-record" ∈ on_path h)) eqn:Hpw;
    [|destruct (bool_decide ("arecord" ∈ on_path h)) eqn:Har];
    (destruct (AUTO_TYPE cfg);
     [destruct (env_set h "WAYLAND_DISPLAY");
      [destruct (bool_decide ("wtype" ∈ on_path h)) eqn:Hty
      |destruct (bool_decide ("xdotool" ∈ on_path h)) eqn:Hty]|]);
    reflect_tests; simpl.

Section Dependencies.

Context (cfg : Config) (h : Host).

Lemma check_dependencies_pass :
  snd (check_dependencies cfg h) = None <->
  ("pw-record" ∈ on_path h \/ "arecord" ∈ on_path h) /\
  (AUTO_TYPE cfg = true -> typing_tool h ∈ on_path h).
Proof.
  dependency_cases cfg h;
    try (split; [intros _; split; [auto | intros _; assumption]
                | intros _; reflexivity]);
    try (split; [intros H; discriminate H | intros [[?|?] ?]; tauto]);
    try (split; [intros _; split; [auto | intros H; discriminate H]
                | intros _; reflexivity]).
Qed.

Lemma check_dependencies_exit :
  snd (check_dependencies cfg h) <> None ->
  snd (check_dependencies cfg h) = Some 1 /\
  last (fst (check_dependencies cfg h)) = Some (Exit 1).
Proof.
  dependency_cases cfg h; intros H; try (exfalso; apply H; reflexivity);
    split; reflexivity.
Qed.

Lemma check_dependencies_probes (tool : string) :
  In (Run ["which"; tool]) (fst (check_dependencies cfg h)) ->
  (tool = "pw-record" \/ tool = "arecord") \/
  (AUTO_TYPE cfg = true /\ tool = typing_tool h).
Proof.
  dependency_cases cfg h; intros Hin;
    repeat (destruct Hin as [Hin | Hin];
            [first [discriminate Hin | injection Hin as <-; auto 10]|]);
    destruct Hin.
Qed.

End Dependencies.

(** X5: [check_dependencies] lets the program go on exactly when a
    recorder is installed ([pw-record] or [arecord]) and, if [AUTO_TYPE]
    is set, the typing tool of the display server is ([wtype] under
    Wayland, [xdotool] otherwise); else it ends the process with status
    1 after listing what is missing.  It probes these four tools only:
    [notify-send], [wl-copy] and [xclip] are not checked, and the typing
    tools are not probed when [AUTO_TYPE] is off. *)
Theorem check_dependencies_passes_iff (cfg : Config) (h : Host) :
  (snd (check_dependencies cfg h) = None <->
   ("pw-record" ∈ on_path h \/ "arecord" ∈ on_path h) /\
   (AUTO_TYPE cfg = true -> typing_tool h ∈ on_path h)) /\
  (snd (check_dependencies cfg h) <> None ->
   snd (check_dependencies cfg h) = Some 1 /\
   last (fst (check_dependencies cfg h)) = Some (Exit 1)) /\
  (forall tool : string,
      In (Run ["which"; tool]) (fst (check_dependencies cfg h)) ->
      (tool = "pw-record" \/ tool = "arecord") \/
      (AUTO_TYPE cfg = true /\ tool = typing_tool h)).
Proof.
  split; [apply check_dependencies_pass|].
  split; [apply check_dependencies_exit | apply check_dependencies_probes].
Qed.

(** X6: once [check_dependencies] has let the program go on, the tools
    that a recording needs are installed: the tool of the capture
    command that [get_record_command] builds, for every output file, and,
    when [AUTO_TYPE] is set, the tool that [type_text] runs, for every
    text. *)
Theorem checked_tools_are_installed (cfg : Config) (h : Host)
    (output_file t : string) :
  snd (check_dependencies cfg h) = None ->
  (exists (tool : string) (args : list string),
      fst (get_record_command h output_file) = tool :: args /\
      tool ∈ on_path h) /\
  (AUTO_TYPE cfg = true ->
   exists args : list string,
     type_text h t = [Run (typing_tool h :: args)] /\
     typing_tool h ∈ on_path h).
Proof.
  intros [Hrec Hty]%check_dependencies_pass. split.
  - rewrite get_record_command_cases, get_audio_recorder_cases.
    destruct (bool_decide ("pw-record" ∈ on_path h)) eqn:Hpw;
      [|destruct (bool_decide ("arecord" ∈ on_path h)) eqn:Har];
      reflect_tests; simpl.
    + eexists _, _. split; [reflexivity | exact Hpw].
    + eexists _, _. split; [reflexivity | exact Har].
    + tauto.
  - intros Ha. specialize (Hty Ha). unfold type_text, typing_tool in *.
    destruct (env_set h "WAYLAND_DISPLAY"); eauto.
Qed.

(** The desktop passes the check: [pw-record] and [xdotool] are there. *)
Lemma checked_tools_on_desktop :
  snd (check_dependencies defaults desktop) = None /\
  (exists (tool : string) (args : list string),
      fst (get_record_command desktop "/tmp/tmp0.wav") = tool :: args /\
      tool ∈ on_path desktop) /\
  (exists args : list string,
      type_text desktop "hello world" = [Run (typing_tool desktop :: args)] /\
      typing_tool desktop ∈ on_path desktop).
Proof.
  assert (H : snd (check_dependencies defaults desktop) = None)
    by (vm_compute; reflexivity).
  destruct (checked_tools_are_installed defaults desktop
              "/tmp/tmp0.wav" "hello world" H) as [Hr Ht].
  split; [exact H|]. split; [exact Hr | exact (Ht eq_refl)].
Defined.

Section Run.

Context (cfg : Config) (h : Host).

Lemma has_key_In (code : Z) (keys : list Z) :
  has_key code keys = true <-> In code keys.
Proof.
  unfold has_key. rewrite existsb_exists. split.
  - intros (k & Hin & ->%Z.eqb_eq). exact Hin.
  - intros Hin. exists code. split; [exact Hin | apply Z.eqb_refl].
Qed.

Lemma is_keyboard_spec (device : InputDevice) :
  is_keyboard device = true <->
  accessible device = true /\
  exists keys : list Z,
    caps_get ecodes.EV_KEY (capabilities device) = Some keys /\
    (In ecodes.KEY_A keys \/ In ecodes.KEY_SPACE keys).
Proof.
  unfold is_keyboard. rewrite andb_true_iff.
  destruct (caps_get ecodes.EV_KEY (capabilities device)) as [keys|].
  - rewrite orb_true_iff, !has_key_In. split.
    + intros [Ha Hk]. eauto.
    + intros [Ha (keys' & [= <-] & Hk)]. auto.
  - split; [intros [_ H]; discriminate H | intros [_ (keys & H & _)]; discriminate H].
Qed.

Lemma run_without_keyboards (future : list happening) (st : State) :
  find_keyboards h = [] ->
  let st' := run cfg h future st in
  process (world st') = Exited 1 /\
  selector (self st') = selector (self st) /\
  last (out (world st')) = Some (Exit 1).
Proof.
  intros E. unfold run. rewrite E. simpl. repeat split.
  rewrite last_app. reflexivity.
Qed.

Lemma run_with_keyboards (future : list happening) (st : State) :
  find_keyboards h <> [] ->
  run cfg h future st
  = main_loop cfg h future
      (on_self (set_selector (list_to_set (map fd (find_keyboards h))))
         (emit [Print ("Monitoring "
                       +:+ Py.str_of_int (Z.of_nat (length (find_keyboards h)))
                       +:+ " keyboard(s)...")]
            (on_self (set_keyboards (find_keyboards h)) st))).
Proof.
  intros E. unfold run. destruct (find_keyboards h); [congruence | reflexivity].
Qed.

Lemma run_alive (future : list happening) (st : State) :
  find_keyboards h <> [] ->
  forallb no_sigint future = true ->
  process (world st) = Alive -> running (self st) = true ->
  process (world (run cfg h future st)) = Alive /\
  running (self (run cfg h future st)) = true.
Proof.
  intros E Hf Ha Hr. rewrite (run_with_keyboards future st E).
  apply main_loop_alive; assumption.
Qed.

End Run.

(** X7: the order of startup in [main].  When a dependency is missing,
    the process exits with status 1 before a [Dictation] object is built:
    no model starts to load, no file or child exists.  When the
    dependencies are there but no keyboard is found, the process exits
    with status 1 too, but only after the object was built and the
    loading of the model was announced.  Otherwise the object exists, and
    as long as no SIGINT comes the process is alive and the loop
    running. *)
Theorem main_startup (cfg : Config) (h : Host) (args : Args)
    (CONFIG_PATH : string) (config_exists : bool) (future : list happening) :
  version args = false ->
  forallb no_sigint future = true ->
  let o := main cfg h args CONFIG_PATH config_exists future in
  (snd (check_dependencies cfg h) <> None ->
   dictation o = None /\
   process (final o) = Exited 1 /\
   last (out (final o)) = Some (Exit 1) /\
   files (final o) = ∅ /\ procs (final o) = ∅) /\
  (snd (check_dependencies cfg h) = None -> find_keyboards h = [] ->
   (exists d : Dictation, dictation o = Some d) /\
   process (final o) = Exited 1 /\
   In (loading_line cfg) (out (final o))) /\
  (snd (check_dependencies cfg h) = None -> find_keyboards h <> [] ->
   (exists d : Dictation, dictation o = Some d /\ running d = true) /\
   process (final o) = Alive).
Proof.
  intros Hv Hf o. unfold o, main. rewrite Hv.
  destruct (get_audio_recorder h) as [recorder probes].
  pose proof (check_dependencies_exit cfg h) as Hexit.
  destruct (check_dependencies cfg h) as [checks code]. simpl in *.
  split; [|split].
  - intros Hc. destruct (Hexit Hc) as [-> Hlast]. simpl.
    repeat split. rewrite app_comm_cons, last_app, Hlast. reflexivity.
  - intros -> Hk. split; [eauto|].
    destruct (run_without_keyboards cfg h future
                (preceded_by ((Print ("SoupaWhisper v" +:+ __version__)
                               :: Print (if config_exists
                                         then "Config: " +:+ CONFIG_PATH
                                         else "Config: using defaults (create "
                                              +:+ CONFIG_PATH
                                              +:+ " to customize)")
                               :: probes) ++ checks)
                   (__init__ cfg)) Hk) as (Hp & _).
    split; [exact Hp|].
    unfold run. rewrite Hk. simpl. unfold loading_line.
    rewrite <- !app_assoc. right. right.
    apply in_or_app. right. apply in_or_app. right. left. reflexivity.
  - intros -> Hk.
    destruct (run_alive cfg h future
                (preceded_by ((Print ("SoupaWhisper v" +:+ __version__)
                               :: Print (if config_exists
                                         then "Config: " +:+ CONFIG_PATH
                                         else "Config: using defaults (create "
                                              +:+ CONFIG_PATH
                                              +:+ " to customize)")
                               :: probes) ++ checks)
                   (__init__ cfg)) Hk Hf eq_refl eq_refl) as (Ha & Hr).
    split; [eauto | exact Ha].
Qed.

(** On the desktop the program gets to its loop; without input devices
    it exits after the model has begun to load. *)
Lemma main_startup_on_desktop :
  process (final (main defaults desktop no_flags "config.ini" false
                    [LoaderRuns; Readable [(3%nat, Events [press])]]))
  = Alive /\
  process (final (main defaults headless no_flags "config.ini" false []))
  = Exited 1 /\
  In (loading_line defaults)
    (out (final (main defaults headless no_flags "config.ini" false []))).
Proof.
  destruct (main_startup defaults desktop no_flags "config.ini" false
              [LoaderRuns; Readable [(3%nat, Events [press])]]
              eq_refl eq_refl) as (_ & _ & H).
  destruct (main_startup defaults headless no_flags "config.ini" false []
              eq_refl eq_refl) as (_ & H' & _).
  split.
  - apply H; [vm_compute; reflexivity | discriminate].
  - apply H'; vm_compute; reflexivity.
Defined.

(** X8: what [run] monitors.  The keyboards are the devices that can be
    opened and whose key capabilities hold the key A or the space key,
    in the order of [evdev.list_devices()]; a device that cannot be
    opened, or has no such key, is passed over.  With no keyboard [run]
    ends the process with status 1 and registers nothing; otherwise the
    selector holds exactly the keyboards before the loop starts. *)
Theorem run_monitors_keyboards (cfg : Config) (h : Host) (st : State) :
  (forall device : InputDevice,
      In device (find_keyboards h) <->
      In device (list_devices h) /\
      accessible device = true /\
      exists keys : list Z,
        caps_get ecodes.EV_KEY (capabilities device) = Some keys /\
        (In ecodes.KEY_A keys \/ In ecodes.KEY_SPACE keys)) /\
  (find_keyboards h = [] ->
   forall future : list happening,
     process (world (run cfg h future st)) = Exited 1 /\
     selector (self (run cfg h future st)) = selector (self st)) /\
  (find_keyboards h <> [] ->
   process (world (run cfg h [] st)) = process (world st) /\
   keyboards (self (run cfg h [] st)) = find_keyboards h /\
   forall d : nat,
     d ∈ selector (self (run cfg h [] st)) <->
     exists device : InputDevice, In device (find_keyboards h) /\ fd device = d).
Proof.
  split; [|split].
  - intros device. unfold find_keyboards.
    rewrite filter_In, is_keyboard_spec. reflexivity.
  - intros E future.
    destruct (run_without_keyboards cfg h future st E) as (Hp & Hs & _). auto.
  - intros E. rewrite (run_with_keyboards cfg h [] st E). simpl.
    split; [reflexivity|]. split; [reflexivity|].
    intros d. rewrite elem_of_list_to_set, list_elem_of_In, in_map_iff.
    split; intros (device & H1 & H2); exists device; auto.
Qed.

(** ** What every run of the program keeps *)

Section Invariant.

Context (cfg : Config) (h : Host) (I : State -> Prop).

Hypothesis I_start : forall st, I st -> I (start_recording cfg h st).
Hypothesis I_stop : forall st, I st -> I (stop_recording cfg h st).
Hypothesis I_load : forall st, I st -> I (load_once cfg h st).
Hypothesis I_selector : forall s st, I st -> I (on_self (set_selector s) st).
Hypothesis I_keyboards : forall k st, I st -> I (on_self (set_keyboards k) st).
Hypothesis I_running : forall b st, I st -> I (on_self (set_running b) st).
Hypothesis I_end : forall s st, I st -> I (end_process s st).
Hypothesis I_emit :
  forall es st, forallb is_plain es = true -> I st -> I (emit es st).

Lemma on_key_event_keeps (event : InputEvent) (st : State) :
  I st -> I (on_key_event cfg h event st).
Proof.
  intros H. unfold on_key_event.
  destruct (code event =? HOTKEY cfg); [|exact H].
  destruct (value event =? 1); [now apply I_start|].
  destruct (value event =? 0); [now apply I_stop | exact H].
Qed.

Lemma read_device_keeps (item : nat * read_result) (st : State) :
  I st -> I (read_device cfg h st item).
Proof.
  intros H. unfold read_device. destruct (process (world st)); [|exact H..].
  destruct item as [d [events|]]; simpl.
  - revert st H. induction events as [|event events IH]; intros st H; simpl;
      [exact H|].
    apply IH. destruct (type event =? ecodes.EV_KEY); [|exact H].
    now apply on_key_event_keeps.
  - unfold unregister. destruct (bool_decide (d ∈ selector (self st)));
      [now apply I_selector | now apply I_end].
Qed.

Lemma step_keeps (x : happening) (st : State) : I st -> I (step cfg h st x).
Proof.
  intros H. unfold step. destruct (process (world st)); [|exact H..].
  destruct x as [ready| |].
  - destruct (running (self st)); [|now apply I_end].
    generalize (select (selector (self st)) ready). intros items.
    revert st H. induction items as [|item items IH]; intros st H; simpl;
      [exact H|].
    apply IH. now apply read_device_keeps.
  - unfold stop. apply I_end, I_emit; [reflexivity|].
    apply I_running, I_emit; [reflexivity | exact H].
  - now apply I_load.
Qed.

Lemma main_loop_keeps (future : list happening) (st : State) :
  I st -> I (main_loop cfg h future st).
Proof.
  revert st. induction future as [|x future IH]; intros st H; simpl;
    [exact H|].
  apply IH. now apply step_keeps.
Qed.

Lemma run_keeps (future : list happening) (st : State) :
  I st -> I (run cfg h future st).
Proof.
  intros H. unfold run. destruct (find_keyboards h) as [|k found].
  - apply I_end, I_emit; [reflexivity|]. now apply I_keyboards.
  - apply main_loop_keeps, I_selector, I_emit; [reflexivity|].
    now apply I_keyboards.
Qed.

End Invariant.

(** ** The traces of the session *)

#[local] Arguments report_error : simpl never.
#[local] Arguments deliver : simpl never.
#[local] Arguments notify : simpl never.

Section Traces.

Context (cfg : Config) (h : Host).

Lemma emitted_app (st st' : State) (es : list effect) :
  out (world st') = out (world st) ++ es -> emitted st st' = es.
Proof. intros E. unfold emitted. rewrite E. apply drop_app_length. Qed.

Lemma start_recording_out (st : State) :
  out (world (start_recording cfg h st))
  = out (world st) ++ start_output cfg h st.
Proof.
  unfold start_recording, start_output.
  destruct (recording (self st) || Py.truthy_opt (model_error (self st)));
    [now rewrite app_nil_r|].
  simpl. destruct (get_record_command h _) as [record_cmd probes]. simpl.
  now rewrite <- !app_assoc.
Qed.

Lemma halt_out (st : State) :
  out (world (halt cfg st)) = out (world st) ++ stop_prefix cfg st.
Proof.
  unfold halt, stop_prefix. simpl.
  destruct (record_process (self st)); simpl; now rewrite <- ?app_assoc.
Qed.

Lemma load_once_out (st : State) :
  out (world (load_once cfg h st))
  = out (world st) ++ (if model_loaded (self st) then [] else load_output cfg h).
Proof.
  unfold load_once, _load_model, load_output.
  destruct (model_loaded (self st)); [now rewrite app_nil_r|].
  destruct (WhisperModel h); reflexivity.
Qed.

Lemma load_once_model (st : State) :
  model_error (self (load_once cfg h st)) = model_error_after_wait h st /\
  model (self (load_once cfg h st)) = model_after_wait h st /\
  model_loaded (self (load_once cfg h st)) = true.
Proof.
  unfold load_once, _load_model, model_error_after_wait, model_after_wait.
  destruct (model_loaded (self st)) eqn:E; [auto|].
  destruct (WhisperModel h); auto.
Qed.

Lemma transcription_out (st : State) :
  out (world (transcription cfg h st))
  = out (world st) ++
    match model (self st) with
    | None =>
        report_error cfg "'NoneType' object has no attribute 'transcribe'"
    | Some _ =>
        match temp_file (self st) with
        | None =>
            report_error cfg "'NoneType' object has no attribute 'name'"
        | Some name =>
            [Transcribe name 5 true] ++
            match raises (transcribe h (transcribed (world st))) with
            | Some str_e => report_error cfg str_e
            | None =>
                deliver cfg h
                  (assemble (segments (transcribe h (transcribed (world st)))))
            end
        end
    end.
Proof.
  unfold transcription.
  destruct (model (self st)); [|reflexivity].
  destruct (temp_file (self st)) as [name|]; [|reflexivity].
  destruct (raises (transcribe h (transcribed (world st)))); simpl;
    now rewrite <- app_assoc.
Qed.

Lemma cleanup_out (st : State) :
  out (world (cleanup st))
  = out (world st) ++
    match temp_file (self st) with
    | Some name =>
        if bool_decide (name ∈ files (world st)) then [Unlink name] else []
    | None => []
    end.
Proof.
  unfold cleanup. destruct (temp_file (self st)) as [name|];
    [|now rewrite app_nil_r].
  destruct (bool_decide (name ∈ files (world st)));
    [reflexivity | now rewrite app_nil_r].
Qed.

Lemma conclude_out (st : State) :
  out (world (conclude cfg h st))
  = out (world st) ++
    (if Py.truthy_opt (model_error (self st)) then
       [Print "Cannot transcribe: model failed to load"] ++
       notify cfg "Error" "Model failed to load" "dialog-error" 3000
     else
       match model (self st) with
       | None =>
           report_error cfg "'NoneType' object has no attribute 'transcribe'"
       | Some _ =>
           match temp_file (self st) with
           | None =>
               report_error cfg "'NoneType' object has no attribute 'name'"
           | Some name =>
               [Transcribe name 5 true] ++
               match raises (transcribe h (transcribed (world st))) with
               | Some str_e => report_error cfg str_e
               | None =>
                   deliver cfg h
                     (assemble (segments (transcribe h (transcribed (world st)))))
               end
           end
       end ++
       match temp_file (self st) with
       | Some name =>
           if bool_decide (name ∈ files (world st)) then [Unlink name] else []
       | None => []
       end).
Proof.
  unfold conclude. destruct (Py.truthy_opt (model_error (self st)));
    [reflexivity|].
  rewrite cleanup_out, transcription_out.
  destruct (transcription_frame cfg h st) as (-> & -> & _).
  now rewrite <- app_assoc.
Qed.

(** The whole trace of a call of [stop_recording]. *)
Lemma stop_recording_out (st : State) :
  out (world (stop_recording cfg h st))
  = out (world st) ++ stop_output cfg h st.
Proof.
  unfold stop_output. destruct (recording (self st)) eqn:Hrec;
    [|rewrite stop_recording_while_idle by exact Hrec; now rewrite app_nil_r].
  rewrite (stop_recording_stages cfg h st Hrec), conclude_out, load_once_out,
    halt_out.
  destruct (load_once_model (halt cfg st)) as (-> & -> & _).
  destruct (load_once_frame cfg h (halt cfg st))
    as (_ & _ & _ & _ & _ & _ & -> & -> & ->).
  destruct (halt_frame cfg st) as (_ & _ & -> & Hm & Hl & He & -> & ->).
  unfold model_error_after_wait, model_after_wait. rewrite Hm, Hl, He.
  now rewrite <- !app_assoc.
Qed.

End Traces.

(** ** The state after a press and after a release *)

Section States.

Context (cfg : Config) (h : Host).

Lemma start_recording_state (st : State) :
  recording (self st) = false ->
  Py.truthy_opt (model_error (self st)) = false ->
  let st' := start_recording cfg h st in
  recording (self st') = true /\
  temp_file (self st') = Some (mkstemp h (created (world st))) /\
  record_process (self st') = Some (spawn h (spawned (world st))) /\
  files (world st') = {[ mkstemp h (created (world st)) ]} ∪ files (world st) /\
  procs (world st') = {[ spawn h (spawned (world st)) ]} ∪ procs (world st) /\
  model (self st') = model (self st) /\
  model_loaded (self st') = model_loaded (self st) /\
  model_error (self st') = model_error (self st) /\
  transcribed (world st') = transcribed (world st).
Proof.
  intros Hrec He. unfold start_recording. rewrite Hrec, He. simpl.
  destruct (get_record_command h _) as [record_cmd probes]. simpl.
  repeat split; reflexivity.
Qed.

Lemma cleanup_files (st : State) (f : string) :
  temp_file (self st) = Some f ->
  files (world (cleanup st)) = files (world st) ∖ {[ f ]}.
Proof.
  intros Hf. unfold cleanup. rewrite Hf.
  destruct (bool_decide (f ∈ files (world st))) eqn:Hin; [reflexivity|].
  apply bool_decide_eq_false_1 in Hin. symmetry.
  apply difference_disjoint_L, disjoint_singleton_r, Hin.
Qed.

Lemma stop_recording_state (st : State) (f : string) :
  recording (self st) = true ->
  temp_file (self st) = Some f ->
  let st' := stop_recording cfg h st in
  recording (self st') = false /\
  record_process (self st') = None /\
  temp_file (self st') = Some f /\
  model_error (self st') = model_error_after_wait h st /\
  model (self st') = model_after_wait h st /\
  model_loaded (self st') = true /\
  files (world st')
  = (if Py.truthy_opt (model_error_after_wait h st)
     then files (world st)
     else files (world st) ∖ {[ f ]}).
Proof.
  intros Hrec Hf. simpl. rewrite (stop_recording_stages cfg h st Hrec).
  destruct (halt_frame cfg st) as (Hr & Hp & Ht & Hm & Hl & He & Hfs & _).
  destruct (load_once_frame cfg h (halt cfg st))
    as (_ & _ & _ & Hr' & Hp' & _ & Hfs' & Ht' & _).
  destruct (load_once_model cfg h (halt cfg st)) as (He' & Hm' & Hl').
  assert (Ea : model_error_after_wait h (halt cfg st)
               = model_error_after_wait h st)
    by (unfold model_error_after_wait; now rewrite Hl, He).
  assert (Ma : model_after_wait h (halt cfg st) = model_after_wait h st)
    by (unfold model_after_wait; now rewrite Hl, Hm).
  set (st1 := load_once cfg h (halt cfg st)) in *.
  destruct (conclude_frame cfg h st1) as (Hs & _).
  rewrite Hs, Hr', Hp', Ht', Hr, Hp, Ht, He', Hm', Hl', Ea, Ma, Hf.
  repeat split; try reflexivity.
  unfold conclude. rewrite He', Ea.
  destruct (Py.truthy_opt (model_error_after_wait h st)).
  - simpl. congruence.
  - rewrite (cleanup_files _ f).
    + destruct (transcription_frame cfg h st1) as (_ & -> & _). congruence.
    + destruct (transcription_frame cfg h st1) as (-> & _). congruence.
Qed.

End States.

(** X9: pressing twice is pressing once, and releasing twice is
    releasing once: [start_recording] and [stop_recording] are
    idempotent in every state, so a second press while the hotkey is
    held, or a release while nothing is recorded, changes nothing. *)
Theorem press_and_release_idempotent (cfg : Config) (h : Host) (st : State) :
  start_recording cfg h (start_recording cfg h st) = start_recording cfg h st /\
  stop_recording cfg h (stop_recording cfg h st) = stop_recording cfg h st.
Proof.
  split.
  - destruct (recording (self st)) eqn:Hrec.
    { now rewrite !(start_recording_while_recording cfg h st Hrec). }
    destruct (Py.truthy_opt (model_error (self st))) eqn:He.
    { now rewrite !(start_recording_after_reported_failure cfg h st He). }
    destruct (start_recording_state cfg h st Hrec He) as (Hr & _).
    now apply start_recording_while_recording.
  - apply stop_recording_while_idle.
    destruct (recording (self st)) eqn:Hrec.
    + rewrite (stop_recording_stages cfg h st Hrec).
      destruct (conclude_frame cfg h (load_once cfg h (halt cfg st))) as (-> & _).
      destruct (load_once_frame cfg h (halt cfg st)) as (_ & _ & _ & -> & _).
      now destruct (halt_frame cfg st) as (-> & _).
    + now rewrite (stop_recording_while_idle cfg h st Hrec).
Qed.

(** ** Temporary files *)

Section Tidy.

Context (cfg : Config) (h : Host).

Lemma tidy_init : tidy (__init__ cfg).
Proof. split; [|split]; [reflexivity | discriminate | left; reflexivity]. Qed.

Lemma tidy_start (st : State) : tidy st -> tidy (start_recording cfg h st).
Proof.
  intros H. destruct (recording (self st)) eqn:Hrec.
  { now rewrite (start_recording_while_recording cfg h st Hrec). }
  destruct (Py.truthy_opt (model_error (self st))) eqn:He.
  { now rewrite (start_recording_after_reported_failure cfg h st He). }
  destruct H as (H1 & _ & H3).
  destruct (start_recording_state cfg h st Hrec He)
    as (Hr & Ht & _ & Hf & _ & _ & Hl & He' & _).
  split; [|split].
  - rewrite Hl, He'. exact H1.
  - intros _. eexists. split; [exact Ht|]. rewrite Hf.
    destruct (H3 Hrec) as [-> | [Hc _]]; [apply union_empty_r_L | congruence].
  - rewrite Hr. discriminate.
Qed.

Lemma tidy_stop (st : State) : tidy st -> tidy (stop_recording cfg h st).
Proof.
  intros H. destruct (recording (self st)) eqn:Hrec;
    [|now rewrite (stop_recording_while_idle cfg h st Hrec)].
  destruct H as (_ & H2 & _). destruct (H2 Hrec) as (f & Ht & Hf).
  destruct (stop_recording_state cfg h st f Hrec Ht)
    as (Hr & _ & _ & He & _ & Hl & Hfs).
  split; [|split].
  - rewrite Hl. discriminate.
  - rewrite Hr. discriminate.
  - intros _. rewrite Hfs, He, Hf.
    destruct (Py.truthy_opt (model_error_after_wait h st)).
    + right. eauto.
    + left. apply difference_diag_L.
Qed.

Lemma tidy_load (st : State) : tidy st -> tidy (load_once cfg h st).
Proof.
  intros (H1 & H2 & H3).
  destruct (load_once_frame cfg h st)
    as (_ & _ & _ & Hr & _ & _ & Hf & Ht & _).
  destruct (load_once_model cfg h st) as (He & _ & Hl).
  split; [|split].
  - rewrite Hl. discriminate.
  - rewrite Hr, Ht, Hf. exact H2.
  - rewrite Hr, Hf, He. intros Hrec. destruct (H3 Hrec) as [E | [Hc E]]; [auto|].
    right. split; [|exact E]. unfold model_error_after_wait.
    destruct (model_loaded (self st)) eqn:Hl'; [exact Hc|].
    rewrite (H1 eq_refl) in Hc. discriminate Hc.
Qed.

Lemma tidy_run (future : list happening) :
  tidy (run cfg h future (__init__ cfg)).
Proof.
  apply run_keeps; auto using tidy_start, tidy_stop, tidy_load, tidy_init.
Qed.

End Tidy.

(** X10: in every run of the program, whatever the host does and in
    whatever order things happen, at most one temporary file is on disk
    at any time: the file of the recording that runs, or the one file
    that a release has left behind after the model failed to load. *)
Theorem at_most_one_temporary_file (cfg : Config) (h : Host)
    (future : list happening) :
  (size (files (world (run cfg h future (__init__ cfg)))) <= 1)%nat.
Proof.
  destruct (tidy_run cfg h future) as (_ & H2 & H3).
  destruct (recording (self (run cfg h future (__init__ cfg)))) eqn:Hrec.
  - destruct (H2 eq_refl) as (f & _ & ->). now rewrite size_singleton.
  - destruct (H3 eq_refl) as [-> | [_ (f & ->)]].
    + rewrite size_empty. lia.
    + now rewrite size_singleton.
Qed.

Section Clean.

Context (cfg : Config) (h : Host).

Hypothesis loads : WhisperModel h = Loaded.






End Clean.



(** ** The model is not called when it failed to load *)

Section Failed.

Context (cfg : Config) (h : Host) (str_e : string).

Hypothesis fails : WhisperModel h = LoadRaises str_e.

Lemma notify_no_transcribe (title message icon : string) (timeout : Z) :
  existsb is_transcribe (notify cfg title message icon timeout) = false.
Proof. unfold notify. destruct (NOTIFICATIONS cfg); reflexivity. Qed.

Lemma start_output_no_transcribe (st : State) :
  existsb is_transcribe (start_output cfg h st) = false.
Proof.
  unfold start_output.
  destruct (recording (self st) || Py.truthy_opt (model_error (self st)));
    [reflexivity|].
  cbv zeta. rewrite get_record_command_cases, get_audio_recorder_cases.
  destruct (bool_decide ("pw-record" ∈ on_path h));
    [|destruct (bool_decide ("arecord" ∈ on_path h))];
    simpl; apply notify_no_transcribe.
Qed.

Lemma load_output_no_transcribe :
  existsb is_transcribe (load_output cfg h) = false.
Proof.
  unfold load_output. rewrite fails. simpl.
  now destruct (Py.contains "cudnn" (Py.lower str_e)
                || Py.contains "cuda" (Py.lower str_e)).
Qed.

Lemma model_after_wait_none (st : State) :
  model (self st) = None -> model_after_wait h st = None.
Proof.
  intros E. unfold model_after_wait. rewrite fails.
  now destruct (model_loaded (self st)).
Qed.

Lemma stop_output_no_transcribe (st : State) :
  model (self st) = None ->
  existsb is_transcribe (stop_output cfg h st) = false.
Proof.
  intros Hm. unfold stop_output. destruct (recording (self st)); [|reflexivity].
  rewrite (model_after_wait_none st Hm), !existsb_app.
  assert (Hp : existsb is_transcribe (stop_prefix cfg st) = false).
  { unfold stop_prefix. rewrite !existsb_app, notify_no_transcribe.
    now destruct (record_process (self st)). }
  rewrite Hp. simpl.
  assert (Hl : existsb is_transcribe
                 (if model_loaded (self st) then [] else load_output cfg h)
               = false)
    by (destruct (model_loaded (self st));
        [reflexivity | apply load_output_no_transcribe]).
  rewrite Hl. simpl.
  destruct (Py.truthy_opt (model_error_after_wait h st)).
  - simpl. apply notify_no_transcribe.
  - unfold report_error. simpl.
    rewrite ?existsb_app, ?notify_no_transcribe. simpl.
    destruct (temp_file (self st)) as [f|]; [|reflexivity].
    now destruct (bool_decide (f ∈ files (world st))).
Qed.

Lemma plain_no_transcribe (es : list effect) :
  forallb is_plain es = true -> existsb is_transcribe es = false.
Proof.
  induction es as [|e es IH]; [reflexivity|]. simpl.
  intros [He Hes]%andb_true_iff. rewrite (IH Hes).
  now destruct e.
Qed.

Lemma unloaded_start (st : State) :
  unloaded st -> unloaded (start_recording cfg h st).
Proof.
  intros [Hm Hn]. split.
  - now destruct (start_recording_frame cfg h st) as (_ & _ & _ & -> & _).
  - unfold never in *. rewrite start_recording_out, existsb_app, Hn.
    apply start_output_no_transcribe.
Qed.

Lemma unloaded_load (st : State) :
  unloaded st -> unloaded (load_once cfg h st).
Proof.
  intros [Hm Hn]. split.
  - destruct (load_once_model cfg h st) as (_ & -> & _).
    now apply model_after_wait_none.
  - unfold never in *. rewrite load_once_out, existsb_app, Hn.
    destruct (model_loaded (self st));
      [reflexivity | apply load_output_no_transcribe].
Qed.

Lemma unloaded_stop (st : State) :
  unloaded st -> unloaded (stop_recording cfg h st).
Proof.
  intros [Hm Hn]. split.
  - destruct (recording (self st)) eqn:Hrec;
      [|now rewrite (stop_recording_while_idle cfg h st Hrec)].
    rewrite (stop_recording_stages cfg h st Hrec).
    destruct (conclude_frame cfg h (load_once cfg h (halt cfg st))) as (-> & _).
    destruct (load_once_model cfg h (halt cfg st)) as (_ & -> & _).
    apply model_after_wait_none.
    destruct (halt_frame cfg st) as (_ & _ & _ & -> & _). exact Hm.
  - unfold never in *. rewrite stop_recording_out, existsb_app, Hn.
    now apply stop_output_no_transcribe.
Qed.

Lemma unloaded_emit (es : list effect) (st : State) :
  forallb is_plain es = true -> unloaded st -> unloaded (emit es st).
Proof.
  intros Hp [Hm Hn]. split; [exact Hm|].
  unfold never in *. simpl. rewrite existsb_app, Hn.
  now apply plain_no_transcribe.
Qed.

Lemma unloaded_run (future : list happening) :
  unloaded (run cfg h future (__init__ cfg)).
Proof.
  apply run_keeps;
    auto using unloaded_start, unloaded_stop, unloaded_load, unloaded_emit.
  split; reflexivity.
Qed.

End Failed.

(** X12: when the loading of the model raises, whatever the message,
    the model is not called in any run: [self.model] stays [None] and no
    transcription is ever attempted, on any release of the hotkey. *)
Theorem model_not_called_after_failed_load (cfg : Config) (h : Host)
    (str_e : string) (future : list happening) :
  WhisperModel h = LoadRaises str_e ->
  model (self (run cfg h future (__init__ cfg))) = None /\
  never is_transcribe (run cfg h future (__init__ cfg)).
Proof. intros Hf. exact (unloaded_run cfg h str_e Hf future). Qed.

(** On the desktop, when the loading fails for want of a CUDA driver. *)
Lemma model_not_called_on_desktop :
  let h := desktop_with cuda_failure hello_world in
  WhisperModel h = cuda_failure /\
  never is_transcribe (run defaults h one_dictation (__init__ defaults)).
Proof.
  intros h. assert (Hf : WhisperModel h = cuda_failure) by reflexivity.
  split; [exact Hf|].
  exact (proj2 (model_not_called_after_failed_load defaults h _
                  one_dictation Hf)).
Defined.

(** ** Devices and events *)

Section Devices.

Context (cfg : Config) (h : Host).

Lemma step_selector (st : State) (x : happening) :
  selector (self (step cfg h st x)) ⊆ selector (self st).
Proof.
  unfold step. destruct (process (world st)) eqn:Ha; [|reflexivity..].
  destruct x as [ready| |].
  - destruct (running (self st)); [|reflexivity].
    rewrite pass_over_selected by (exact Ha || reflexivity). simpl.
    apply subseteq_difference_l. reflexivity.
  - reflexivity.
  - destruct (load_once_frame cfg h st) as (_ & Hs & _).
    unfold load_once in Hs. simpl in Hs. rewrite Hs. reflexivity.
Qed.

Lemma main_loop_selector (future : list happening) (st : State) :
  selector (self (main_loop cfg h future st)) ⊆ selector (self st).
Proof.
  revert st. induction future as [|x future IH]; intros st; simpl;
    [reflexivity|].
  etransitivity; [apply IH | apply step_selector].
Qed.

Lemma drives_false (event : InputEvent) (st : State) :
  drives cfg event = false ->
  (if type event =? ecodes.EV_KEY then on_key_event cfg h event st else st) = st.
Proof.
  unfold drives, on_key_event.
  destruct (type event =? ecodes.EV_KEY); [|reflexivity].
  destruct (code event =? HOTKEY cfg); [|reflexivity].
  destruct (value event =? 1); [discriminate|].
  destruct (value event =? 0); [discriminate | reflexivity].
Qed.

End Devices.

(** X13: a device never enters the selector after startup.  In every
    run the registered devices are among the keyboards that [run] found
    at startup, and as the run goes on the set of registered devices only
    shrinks: a device that was unregistered after a failed read is never
    read again. *)
Theorem selector_only_shrinks (cfg : Config) (h : Host)
    (future more : list happening) (st : State) :
  selector (self (main_loop cfg h (future ++ more) st))
  ⊆ selector (self (main_loop cfg h future st)) /\
  selector (self (run cfg h future (__init__ cfg)))
  ⊆ list_to_set (map fd (find_keyboards h)).
Proof.
  split.
  - unfold main_loop. rewrite fold_left_app. apply main_loop_selector.
  - destruct (find_keyboards h) as [|k found] eqn:E.
    + destruct (run_without_keyboards cfg h future (__init__ cfg) E)
        as (_ & -> & _). reflexivity.
    + rewrite run_with_keyboards by (rewrite E; discriminate).
      rewrite E. etransitivity; [apply main_loop_selector | reflexivity].
Qed.

(** X14: only presses and releases of the hotkey count.  Reading a
    device gives the same state and the same trace when every other
    event is dropped from what was read: events of other types, other
    keys, and the repeats of the hotkey while it is held. *)
Theorem other_events_are_ignored (cfg : Config) (h : Host) (st : State)
    (d : nat) (events : list InputEvent) :
  read_device cfg h st (d, Events events)
  = read_device cfg h st (d, Events (List.filter (drives cfg) events)).
Proof.
  unfold read_device. simpl. destruct (process (world st)); [|reflexivity..].
  revert st. induction events as [|event events IH]; intros st; simpl;
    [reflexivity|].
  destruct (drives cfg event) eqn:Hd; simpl.
  - apply IH.
  - rewrite (drives_false cfg h event st Hd). apply IH.
Qed.

(** ** One dictation, and a transcription that raises *)

Section Cycle.

Context (cfg : Config) (h : Host).

Lemma stop_recording_procs (st : State) :
  recording (self st) = true ->
  procs (world (stop_recording cfg h st))
  = match record_process (self st) with
    | Some pid => procs (world st) ∖ {[ pid ]}
    | None => procs (world st)
    end.
Proof.
  intros Hrec. rewrite (stop_recording_stages cfg h st Hrec).
  destruct (conclude_frame cfg h (load_once cfg h (halt cfg st))) as (_ & -> & _).
  destruct (load_once_frame cfg h (halt cfg st))
    as (_ & _ & _ & _ & _ & -> & _).
  apply halt_procs.
Qed.

(** The trace of [stop_recording] when the model is loaded. *)
Lemma stop_output_loaded (st : State) (f : string) (m : model_object) :
  recording (self st) = true ->
  temp_file (self st) = Some f ->
  model_loaded (self st) = true ->
  model (self st) = Some m ->
  Py.truthy_opt (model_error (self st)) = false ->
  stop_output cfg h st
  = stop_prefix cfg st ++
    [Transcribe f 5 true] ++
    match raises (transcribe h (transcribed (world st))) with
    | Some str_e => report_error cfg str_e
    | None =>
        deliver cfg h
          (assemble (segments (transcribe h (transcribed (world st)))))
    end ++
    (if bool_decide (f ∈ files (world st)) then [Unlink f] else []).
Proof.
  intros Hrec Hf Hl Hm He.
  unfold stop_output, model_error_after_wait, model_after_wait.
  rewrite Hrec, Hl, Hm, He, Hf. simpl. rewrite <- ?app_assoc. reflexivity.
Qed.

End Cycle.

(** X15: one dictation from start to end.  With the model loaded, a
    fresh name for the temporary file and a fresh process id, a press
    followed by a release leaves the session idle with the files and the
    capture children as they were before the press.  In between the
    recorder was spawned on the temporary file, it was terminated and
    waited for before the model was called, the model was called on that
    same file, the transcript was delivered once, and the file was
    deleted last. *)
Theorem press_then_release (cfg : Config) (h : Host) (st : State)
    (m : model_object) :
  recording (self st) = false ->
  Py.truthy_opt (model_error (self st)) = false ->
  model_loaded (self st) = true ->
  model (self st) = Some m ->
  raises (transcribe h (transcribed (world st))) = None ->
  mkstemp h (created (world st)) ∉ files (world st) ->
  spawn h (spawned (world st)) ∉ procs (world st) ->
  let name := mkstemp h (created (world st)) in
  let pid := spawn h (spawned (world st)) in
  let st1 := start_recording cfg h st in
  let st2 := stop_recording cfg h st1 in
  procs (world st1) = {[ pid ]} ∪ procs (world st) /\
  last (fst (get_record_command h name)) = Some name /\
  Idle st2 /\
  files (world st2) = files (world st) /\
  procs (world st2) = procs (world st) /\
  emitted st st2
  = [NamedTemporaryFile name] ++
    snd (get_record_command h name) ++
    [Popen (fst (get_record_command h name)) pid; Print "Recording..."] ++
    notify cfg "Recording..."
      ("Release " +:+ get_key_name (HOTKEY cfg) +:+ " when done")
      "audio-input-microphone" 30000 ++
    [Terminate pid; Wait pid; Print "Transcribing..."] ++
    notify cfg "Transcribing..." "Processing your speech"
      "emblem-synchronizing" 30000 ++
    [Transcribe name 5 true] ++
    deliver cfg h (assemble (segments (transcribe h (transcribed (world st))))) ++
    [Unlink name].
Proof.
  intros Hrec He Hl Hm Hr Hname Hpid name pid st1 st2.
  destruct (start_recording_state cfg h st Hrec He)
    as (Hrec1 & Ht1 & Hp1 & Hf1 & Hq1 & Hm1 & Hl1 & He1 & Hn1).
  fold name pid st1 in Hrec1, Ht1, Hp1, Hf1, Hq1, Hm1, Hl1, He1, Hn1.
  destruct (stop_recording_state cfg h st1 name Hrec1 Ht1)
    as (Hrec2 & Hp2 & _ & _ & _ & _ & Hf2).
  fold st2 in Hrec2, Hp2, Hf2.
  assert (Ew : Py.truthy_opt (model_error_after_wait h st1) = false).
  { unfold model_error_after_wait. rewrite Hl1, Hl, He1. exact He. }
  split; [exact Hq1|]. split.
  { rewrite get_record_command_cases, get_audio_recorder_cases.
    destruct (bool_decide ("pw-record" ∈ on_path h));
      [|destruct (bool_decide ("arecord" ∈ on_path h))]; reflexivity. }
  split; [split; assumption|]. split.
  { rewrite Hf2, Ew, Hf1.
    rewrite difference_union_distr_l_L, difference_diag_L, union_empty_l_L.
    apply difference_disjoint_L, disjoint_singleton_r, Hname. }
  split.
  { unfold st2. rewrite (stop_recording_procs cfg h st1 Hrec1), Hp1, Hq1.
    rewrite difference_union_distr_l_L, difference_diag_L, union_empty_l_L.
    apply difference_disjoint_L, disjoint_singleton_r, Hpid. }
  apply emitted_app. unfold st2.
  rewrite stop_recording_out, (stop_output_loaded cfg h st1 name m);
    try assumption; try congruence.
  unfold st1 at 1. rewrite start_recording_out.
  unfold start_output, stop_prefix. rewrite Hrec, He, Hp1, Hn1, Hr, Hf1. simpl.
  rewrite bool_decide_eq_true_2
    by (apply elem_of_union_l, elem_of_singleton; reflexivity).
  fold name pid. rewrite <- !app_assoc. simpl. rewrite <- !app_assoc.
  reflexivity.
Qed.

(** On the desktop, from the state in which the model has loaded. *)
Lemma press_then_release_on_desktop :
  let st2 := stop_recording defaults desktop
               (start_recording defaults desktop ready_desktop) in
  procs (world (start_recording defaults desktop ready_desktop))
  = {[ 4001%positive ]} ∪ procs (world ready_desktop) /\
  Idle st2 /\
  files (world st2) = files (world ready_desktop) /\
  procs (world st2) = procs (world ready_desktop).
Proof.
  intros st2.
  assert (H : recording (self ready_desktop) = false /\
              Py.truthy_opt (model_error (self ready_desktop)) = false /\
              model_loaded (self ready_desktop) = true /\
              model (self ready_desktop) = Some whisper_model /\
              raises (transcribe desktop (transcribed (world ready_desktop)))
              = None)
    by (vm_compute; auto 10).
  destruct H as (H1 & H2 & H3 & H4 & H5).
  assert (H6 : mkstemp desktop (created (world ready_desktop))
               ∉ files (world ready_desktop)) by apply not_elem_of_empty.
  assert (H7 : spawn desktop (spawned (world ready_desktop))
               ∉ procs (world ready_desktop)) by apply not_elem_of_empty.
  destruct (press_then_release defaults desktop ready_desktop whisper_model
              H1 H2 H3 H4 H5 H6 H7) as (Hq & _ & Hi & Hf & Hp & _).
  split; [exact Hq|]. split; [exact Hi|]. split; [exact Hf | exact Hp].
Defined.

(** X16: a transcription that raises.  With the model loaded, when the
    call of the model or the iteration over its segments raises, the
    release prints "Error:" with the message, notifies with the first 50
    characters of the message, delivers nothing to any sink, whatever
    segments came before the exception, deletes the temporary file and
    leaves the session idle and the process alive. *)
Theorem transcription_error_is_reported (cfg : Config) (h : Host) (st : State)
    (f : string) (m : model_object) (str_e : string) :
  recording (self st) = true ->
  temp_file (self st) = Some f ->
  model_loaded (self st) = true ->
  model (self st) = Some m ->
  Py.truthy_opt (model_error (self st)) = false ->
  raises (transcribe h (transcribed (world st))) = Some str_e ->
  let st' := stop_recording cfg h st in
  emitted st st'
  = stop_prefix cfg st ++
    [Transcribe f 5 true; Print ("Error: " +:+ str_e)] ++
    notify cfg "Error" (substring 0 50 str_e) "dialog-error" 3000 ++
    (if bool_decide (f ∈ files (world st)) then [Unlink f] else []) /\
  existsb is_clipboard (emitted st st') = false /\
  existsb is_typing (emitted st st') = false /\
  Idle st' /\
  (f ∉ files (world st')) /\
  process (world st') = process (world st).
Proof.
  intros Hrec Hf Hl Hm He Hr st'.
  assert (E : emitted st st'
              = stop_prefix cfg st ++
                [Transcribe f 5 true; Print ("Error: " +:+ str_e)] ++
                notify cfg "Error" (substring 0 50 str_e) "dialog-error" 3000 ++
                (if bool_decide (f ∈ files (world st)) then [Unlink f] else [])).
  { apply emitted_app. unfold st'.
    rewrite stop_recording_out, (stop_output_loaded cfg h st f m) by assumption.
    rewrite Hr. unfold report_error. rewrite slice_to_substring.
    simpl. rewrite <- ?app_assoc. reflexivity. }
  destruct (stop_recording_outcome cfg h st f Hrec Hf) as [Hidle Hfile].
  destruct (stop_recording_state cfg h st f Hrec Hf) as (_ & _ & _ & He' & _).
  destruct (stop_recording_frame cfg h st) as (Hp & _).
  split; [exact E|]. rewrite E, !existsb_app. simpl.
  destruct (stop_prefix_no_sink cfg st) as [-> ->].
  destruct (notify_no_sink cfg "Error" (substring 0 50 str_e) "dialog-error" 3000)
    as [-> ->].
  destruct (unlink_no_sink (bool_decide (f ∈ files (world st))) f) as [-> ->].
  split; [reflexivity|]. split; [reflexivity|].
  split; [exact Hidle|]. split; [|exact Hp].
  intros Hin. apply Hfile in Hin as [_ Hc].
  rewrite He' in Hc. unfold model_error_after_wait in Hc.
  rewrite Hl, He in Hc. discriminate Hc.
Qed.

(** On the desktop, with the hotkey held, when the model runs out of
    memory after a first segment. *)
Lemma transcription_error_on_desktop :
  let h := desktop_with Loaded out_of_memory in
  emitted (held h) (stop_recording defaults h (held h))
  = [Terminate 4001; Wait 4001; Print "Transcribing...";
     Run ["notify-send"; "-a"; "SoupaWhisper"; "-i"; "emblem-synchronizing";
          "-t"; "30000"; "-h";
          "string:x-canonical-private-synchronous:soupawhisper";
          "Transcribing..."; "Processing your speech"];
     Transcribe "/tmp/tmp0.wav" 5 true;
     Print "Error: CUDA out of memory";
     Run ["notify-send"; "-a"; "SoupaWhisper"; "-i"; "dialog-error";
          "-t"; "3000"; "-h";
          "string:x-canonical-private-synchronous:soupawhisper";
          "Error"; "CUDA out of memory"];
     Unlink "/tmp/tmp0.wav"].
Proof.
  intros h.
  assert (H : recording (self (held h)) = true /\
              temp_file (self (held h)) = Some "/tmp/tmp0.wav" /\
              model_loaded (self (held h)) = true /\
              model (self (held h)) = Some whisper_model /\
              Py.truthy_opt (model_error (self (held h))) = false /\
              raises (transcribe h (transcribed (world (held h))))
              = Some "CUDA out of memory")
    by (vm_compute; auto 10).
  destruct H as (H1 & H2 & H3 & H4 & H5 & H6).
  destruct (transcription_error_is_reported defaults h (held h)
              "/tmp/tmp0.wav" whisper_model "CUDA out of memory"
              H1 H2 H3 H4 H5 H6) as (E & _).
  rewrite E. vm_compute. reflexivity.
Defined.

(** ** The programs that are run *)

Section Lawful.

Context (cfg : Config) (h : Host).

Lemma notify_permitted (title message icon : string) (timeout : Z) :
  forallb (permitted cfg) (notify cfg title message icon timeout) = true.
Proof.
  unfold notify. destruct (NOTIFICATIONS cfg) eqn:E; simpl;
    rewrite ?E; reflexivity.
Qed.

Lemma start_output_permitted (st : State) :
  forallb (permitted cfg) (start_output cfg h st) = true.
Proof.
  unfold start_output.
  destruct (recording (self st) || Py.truthy_opt (model_error (self st)));
    [reflexivity|].
  cbv zeta. rewrite get_record_command_cases, get_audio_recorder_cases.
  destruct (bool_decide ("pw-record" ∈ on_path h));
    [|destruct (bool_decide ("arecord" ∈ on_path h))];
    simpl; apply notify_permitted.
Qed.

Lemma load_output_permitted : forallb (permitted cfg) (load_output cfg h) = true.
Proof.
  unfold load_output. destruct (WhisperModel h) as [|e]; [reflexivity|].
  simpl. now destruct (Py.contains "cudnn" (Py.lower e)
                       || Py.contains "cuda" (Py.lower e)).
Qed.

Lemma report_error_permitted (str_e : string) :
  forallb (permitted cfg) (report_error cfg str_e) = true.
Proof. unfold report_error. simpl. apply notify_permitted. Qed.

Lemma copy_to_clipboard_permitted (t : string) :
  forallb (permitted cfg) (copy_to_clipboard h t) = true.
Proof.
  unfold copy_to_clipboard, which.
  destruct (env_set h "WAYLAND_DISPLAY");
    [destruct (bool_decide ("wl-copy" ∈ on_path h))
    |destruct (env_set h "DISPLAY");
     [destruct (bool_decide ("xclip" ∈ on_path h))|]];
    reflexivity.
Qed.

Lemma deliver_permitted (t : string) :
  forallb (permitted cfg) (deliver cfg h t) = true.
Proof.
  unfold deliver. destruct (Py.truthy t).
  - rewrite !forallb_app, copy_to_clipboard_permitted, notify_permitted.
    simpl. rewrite andb_true_r.
    destruct (AUTO_TYPE cfg) eqn:E; [|reflexivity].
    unfold type_text. destruct (env_set h "WAYLAND_DISPLAY"); simpl;
      rewrite E; reflexivity.
  - simpl. apply notify_permitted.
Qed.

Lemma stop_output_permitted (st : State) :
  forallb (permitted cfg) (stop_output cfg h st) = true.
Proof.
  unfold stop_output. destruct (recording (self st)); [|reflexivity].
  rewrite !forallb_app.
  assert (Hp : forallb (permitted cfg) (stop_prefix cfg st) = true).
  { unfold stop_prefix. rewrite !forallb_app, notify_permitted.
    now destruct (record_process (self st)). }
  assert (Hl : forallb (permitted cfg)
                 (if model_loaded (self st) then [] else load_output cfg h)
               = true)
    by (destruct (model_loaded (self st));
        [reflexivity | apply load_output_permitted]).
  rewrite Hp, Hl. simpl.
  destruct (Py.truthy_opt (model_error_after_wait h st)).
  - simpl. apply notify_permitted.
  - rewrite forallb_app.
    assert (Hu : forallb (permitted cfg)
                   match temp_file (self st) with
                   | Some name =>
                       if bool_decide (name ∈ files (world st))
                       then [Unlink name] else []
                   | None => []
                   end = true).
    { destruct (temp_file (self st)) as [f|]; [|reflexivity].
      now destruct (bool_decide (f ∈ files (world st))). }
    rewrite Hu, andb_true_r.
    destruct (model_after_wait h st); [|apply report_error_permitted].
    destruct (temp_file (self st)); [|apply report_error_permitted].
    simpl.
    destruct (raises (transcribe h (transcribed (world st))));
      [apply report_error_permitted | apply deliver_permitted].
Qed.

Lemma plain_permitted (es : list effect) :
  forallb is_plain es = true -> forallb (permitted cfg) es = true.
Proof.
  induction es as [|e es IH]; [reflexivity|]. simpl.
  intros [He Hes]%andb_true_iff. rewrite (IH Hes).
  destruct e; try discriminate He; reflexivity.
Qed.

Lemma lawful_start (st : State) :
  lawful cfg st -> lawful cfg (start_recording cfg h st).
Proof.
  unfold lawful. intros H.
  now rewrite start_recording_out, forallb_app, H, start_output_permitted.
Qed.

Lemma lawful_stop (st : State) :
  lawful cfg st -> lawful cfg (stop_recording cfg h st).
Proof.
  unfold lawful. intros H.
  now rewrite stop_recording_out, forallb_app, H, stop_output_permitted.
Qed.

Lemma lawful_load (st : State) :
  lawful cfg st -> lawful cfg (load_once cfg h st).
Proof.
  unfold lawful. intros H. rewrite load_once_out, forallb_app, H.
  destruct (model_loaded (self st)); [reflexivity | apply load_output_permitted].
Qed.

Lemma lawful_emit (es : list effect) (st : State) :
  forallb is_plain es = true -> lawful cfg st -> lawful cfg (emit es st).
Proof.
  unfold lawful. intros Hp H. simpl.
  now rewrite forallb_app, H, plain_permitted.
Qed.

Lemma lawful_run (future : list happening) (st : State) :
  lawful cfg st -> lawful cfg (run cfg h future st).
Proof.
  intros H. apply run_keeps;
    auto using lawful_start, lawful_stop, lawful_load, lawful_emit.
Qed.

Lemma check_dependencies_permitted :
  forallb (permitted cfg) (fst (check_dependencies cfg h)) = true.
Proof. dependency_cases cfg h; reflexivity. Qed.

Lemma permitted_notify_send (e : effect) :
  permitted cfg e = true -> is_notify_send e = true -> NOTIFICATIONS cfg = true.
Proof.
  destruct e as [| |[|tool args]| | | | | | | | |]; simpl; try discriminate.
  intros Hp ->%String.eqb_eq. exact Hp.
Qed.

Lemma permitted_typing (e : effect) :
  permitted cfg e = true -> is_typing e = true -> AUTO_TYPE cfg = true.
Proof.
  destruct e as [| |[|tool args]| | | | | | | | |]; simpl; try discriminate.
  intros Hp Ht. rewrite Ht in Hp.
  destruct (String.eqb_spec tool "which") as [->|_]; [discriminate Ht|].
  destruct (String.eqb_spec tool "notify-send") as [->|_];
    [discriminate Ht | exact Hp].
Qed.

Lemma lawful_never (p : effect -> bool) (st : State) :
  lawful cfg st ->
  (forall e, permitted cfg e = true -> p e = true -> False) ->
  never p st.
Proof.
  unfold lawful, never. intros H Hp.
  destruct (existsb p (out (world st))) eqn:E; [|reflexivity].
  apply existsb_exists in E as (e & Hin & He).
  rewrite forallb_forall in H. exfalso. exact (Hp e (H e Hin) He).
Qed.

End Lawful.

(** X17: the programs that the program runs.  In every run, and in the
    dependency check before it, the only commands run are [which],
    [notify-send], [wtype] and [xdotool], text is piped to [wl-copy] and
    [xclip] only, and the only child spawned is [pw-record] or [arecord].
    [notify-send] is run only when [NOTIFICATIONS] is set and the typing
    tools only when [AUTO_TYPE] is: with notifications off no
    notification is ever sent, and with auto-typing off nothing is ever
    typed. *)
Theorem only_permitted_programs_run (cfg : Config) (h : Host)
    (future : list happening) :
  forallb (permitted cfg) (fst (check_dependencies cfg h)) = true /\
  lawful cfg (run cfg h future (__init__ cfg)) /\
  (NOTIFICATIONS cfg = false ->
   never is_notify_send (run cfg h future (__init__ cfg))) /\
  (AUTO_TYPE cfg = false ->
   never is_typing (run cfg h future (__init__ cfg))).
Proof.
  assert (L : lawful cfg (run cfg h future (__init__ cfg)))
    by (apply lawful_run; reflexivity).
  split; [apply check_dependencies_permitted|]. split; [exact L|split].
  - intros Hn. apply (lawful_never cfg _ _ L). intros e He Hs.
    rewrite (permitted_notify_send cfg e He Hs) in Hn. discriminate Hn.
  - intros Ha. apply (lawful_never cfg _ _ L). intros e He Hs.
    rewrite (permitted_typing cfg e He Hs) in Ha. discriminate Ha.
Qed.

(** ** Capture children in every run *)

(** X18: in every run of the program, through device failures, the
    loader and SIGINT, the capture children that are alive are the one
    child that [record_process] holds, if it holds one: there is at most
    one at any time, and none while nothing is being recorded. *)
Theorem one_capture_child_in_every_run (cfg : Config) (h : Host)
    (future : list happening) :
  let st := run cfg h future (__init__ cfg) in
  (size (procs (world st)) <= 1)%nat /\
  procs (world st)
  = match record_process (self st) with
    | Some pid => {[ pid ]}
    | None => ∅
    end /\
  (recording (self st) = false -> procs (world st) = ∅).
Proof.
  intros st.
  assert (H : one_child st).
  { apply run_keeps;
      auto using one_child_start, one_child_stop, one_child_load, one_child_init. }
  split; [now apply one_child_size|]. destruct H as [Hp Hn].
  split; [exact Hp|]. intros Hrec. now rewrite Hp, (Hn Hrec).
Qed.

(** X19: when a press and a release do nothing.  [start_recording]
    leaves the state as it is exactly when a recording runs or
    [model_error] is a message that is not empty; [stop_recording]
    leaves it as it is exactly when no recording runs. *)
Theorem no_op_exactly_when (cfg : Config) (h : Host) (st : State) :
  (start_recording cfg h st = st <->
   recording (self st) = true \/
   Py.truthy_opt (model_error (self st)) = true) /\
  (stop_recording cfg h st = st <-> recording (self st) = false).
Proof.
  split; split.
  - intros E. destruct (recording (self st)) eqn:Hrec; [auto|].
    destruct (Py.truthy_opt (model_error (self st))) eqn:He; [auto|].
    destruct (start_recording_state cfg h st Hrec He) as (Hr & _).
    rewrite E in Hr. congruence.
  - intros [H | H];
      [now apply start_recording_while_recording
      |now apply start_recording_after_reported_failure].
  - intros E. destruct (recording (self st)) eqn:Hrec; [|reflexivity].
    assert (Hr : recording (self (stop_recording cfg h st)) = false).
    { rewrite (stop_recording_stages cfg h st Hrec).
      destruct (conclude_frame cfg h (load_once cfg h (halt cfg st))) as (-> & _).
      destruct (load_once_frame cfg h (halt cfg st)) as (_ & _ & _ & -> & _).
      now destruct (halt_frame cfg st) as (-> & _). }
    rewrite E in Hr. congruence.
  - apply stop_recording_while_idle.
Qed.


